(** * Serverless document processing: the Lambda handler of [src/index.py]

    A shallow embedding of the handler module and the properties of its
    orchestration: dispatch between the custom-resource (bucket policy) flow
    and the S3 ingestion flow, the CloudFormation callback, the bounded retry
    around the OpenRouter call, and the per-step fault isolation.

    Python values are embedded as JSON-like data, exceptions as an error
    type, and every call to an external service (S3, SSM, OpenRouter,
    DynamoDB, SNS, the callback URL) is recorded in a log of calls and
    answered by a [World], which may answer differently depending on the
    calls already made.  Logging ([print], [traceback.print_exc]) and the
    clock ([time.time], the pause between retries) are not modelled. *)

From Stdlib Require Import List String Ascii ZArith NArith Bool Lia.
From Stdlib Require Import Floats.PrimFloat DecimalString.
Import ListNotations.

Set Implicit Arguments.
Set Warnings "-register-all".
Local Open Scope Z_scope.

(** ** Python values *)

Module Py.

(** A Python [str] is a sequence of Unicode code points. *)
Definition str := list N.

(** The characters of an ASCII literal. *)
Definition lit (s : string) : str :=
  List.map N_of_ascii (list_ascii_of_string s).

Fixpoint str_eqb (a b : str) : bool :=
  match a, b with
  | [], [] => true
  | x :: a', y :: b' => N.eqb x y && str_eqb a' b'
  | _, _ => false
  end.

Fixpoint startswith (s p : str) : bool :=
  match p, s with
  | [], _ => true
  | x :: p', y :: s' => N.eqb x y && startswith s' p'
  | _ :: _, [] => false
  end.

(** [p in s] for two strings: [p] occurs in [s] as a substring. *)
Fixpoint str_contains (p s : str) : bool :=
  startswith s p ||
  match s with
  | [] => false
  | _ :: s' => str_contains p s'
  end.

(** [s[:n]] *)
Definition slice_to (n : nat) (s : str) : str := firstn n s.

(** [s.lower()] on the ASCII letters.  The module only compares the result
    with ['true'], and no character outside A-Z lowers to one of t, r, u, e,
    so the comparison is the one Python makes. *)
Definition lower_char (c : N) : N :=
  if (N.leb 65 c && N.leb c 90)%bool then (c + 32)%N else c.

Definition lower (s : str) : str := List.map lower_char s.

(** Values as they arrive in a Lambda event (parsed JSON) and as the handler
    builds them.  A dict is an association list in insertion order; the
    binding of a key is its first occurrence. *)
Inductive json : Type :=
| JNull
| JBool (b : bool)
| JInt (z : Z)
| JFloat (f : float)
| JStr (s : str)
| JArr (l : list json)
| JObj (d : list (str * json)).

Fixpoint dict_get (k : str) (d : list (str * json)) : option json :=
  match d with
  | [] => None
  | (k', v) :: d' => if str_eqb k k' then Some v else dict_get k d'
  end.

(** Truth value of an object, as [if], [and], [or] and [not] test it. *)
Definition truthy (v : json) : bool :=
  match v with
  | JNull => false
  | JBool b => b
  | JInt z => negb (Z.eqb z 0)
  | JFloat f => negb (PrimFloat.eqb f PrimFloat.zero)
  | JStr s => match s with [] => false | _ => true end
  | JArr l => match l with [] => false | _ => true end
  | JObj d => match d with [] => false | _ => true end
  end.

(** [v == 'literal'] *)
Definition eq_str (v : json) (s : str) : bool :=
  match v with
  | JStr s' => str_eqb s' s
  | _ => false
  end.

Inductive exn : Type :=
| KeyError (key : json)
| IndexError
| TypeError
| AttributeError
| ValueError (msg : str)
| ServiceError (detail : str)   (* raised inside a client library or service *)
| RetryError (last : exn).      (* tenacity, once the attempts are used up *)

Definition res (A : Type) : Type := (exn + A)%type.

(** [d.get(k)]: only a dict has the method. *)
Definition get (d : json) (k : str) : res (option json) :=
  match d with
  | JObj kv => inr (dict_get k kv)
  | _ => inl AttributeError
  end.

(** [d[k]] with a string key. *)
Definition getitem (d : json) (k : str) : res json :=
  match d with
  | JObj kv =>
      match dict_get k kv with
      | Some v => inr v
      | None => inl (KeyError (JStr k))
      end
  | _ => inl TypeError
  end.

(** [d[0]] *)
Definition getitem0 (d : json) : res json :=
  match d with
  | JArr l => match l with [] => inl IndexError | x :: _ => inr x end
  | JStr s => match s with [] => inl IndexError | c :: _ => inr (JStr [c]) end
  | JObj _ => inl (KeyError (JInt 0))
  | _ => inl TypeError
  end.

(** [k in c] with a string [k]: key of a dict, element of a list, substring
    of a string; other values are not containers. *)
Definition contains (k : str) (c : json) : res bool :=
  match c with
  | JObj kv => inr (match dict_get k kv with Some _ => true | None => false end)
  | JArr l => inr (existsb (fun x => eq_str x k) l)
  | JStr s => inr (str_contains k s)
  | _ => inl TypeError
  end.

End Py.
Import Py.

(** ** The outside world *)

(** What the OpenAI client returns: [resp.choices], each choice with its
    [message] and the message with its [content]; each may be [None]. *)
Record ChatCompletionMessage : Type := { content : option str }.
Record Choice : Type := { message : option ChatCompletionMessage }.
Record ChatCompletion : Type := { choices : option (list Choice) }.

(** The client built by [get_openrouter_client]. *)
Record OpenAI : Type := { base_url : str; api_key : json }.

(** The Lambda context object; the handler reads one attribute. *)
Record Context : Type := { log_stream_name : str }.

(** One call to an external service, with the arguments the handler passes. *)
Inductive call : Type :=
| S3_put_bucket_policy (Bucket : json) (Policy : string)
| S3_delete_bucket_policy (Bucket : json)
| S3_get_object (Bucket Key : json)
| SSM_get_parameter (Name : str) (WithDecryption : bool)
| Chat_completions_create (client : OpenAI) (model : str) (messages : json)
| DynamoDB_put_item (TableName : str) (Item : json)
| SNS_publish (TopicArn Subject Message : str)
| HTTP_PUT (url : json) (body : list Byte.byte) (headers : list (str * str)).

(** The environment of one invocation: the process environment, the library
    functions whose text output the handler only passes on, and the answer
    of every service to a call, given the calls made before it. *)
Record World : Type := {
  environ : str -> option str;
  (** [json.dumps] with its defaults: ASCII-only text ([ensure_ascii]), so
      its UTF-8 encoding has one byte per character. *)
  json_dumps : json -> string;
  (** [str(v)] of a value that is not a [str], as an f-string formats it. *)
  py_str : json -> str;
  (** [str(e)] of an exception. *)
  exc_str : exn -> str;
  s3_put_bucket_policy : list call -> json -> string -> res unit;
  s3_delete_bucket_policy : list call -> json -> res unit;
  (** [get_object], then [Body.read().decode('utf-8')]. *)
  s3_get_object : list call -> json -> json -> res str;
  ssm_get_parameter : list call -> str -> bool -> res json;
  chat_completions_create : list call -> OpenAI -> str -> json -> res ChatCompletion;
  dynamodb_put_item : list call -> str -> json -> res unit;
  sns_publish : list call -> str -> str -> str -> res unit;
  (** [urllib3.PoolManager().request('PUT', ...)]: the response status. *)
  http_request_put : list call -> json -> list Byte.byte -> list (str * str) -> res Z
}.

(** ** Computations: exceptions and a log of calls *)

(** A computation is run after the calls [h] already made and yields a value
    or an exception, with the calls it made itself, oldest first. *)
Definition M (A : Type) : Type := list call -> res A * list call.

Definition ret {A} (a : A) : M A := fun _ => (inr a, []).

Definition raise {A} (e : exn) : M A := fun _ => (inl e, []).

Definition lift {A} (r : res A) : M A := fun _ => (r, []).

Definition bind {A B} (m : M A) (f : A -> M B) : M B :=
  fun h =>
    match m h with
    | (inl e, d) => (inl e, d)
    | (inr a, d) => let (r, d') := f a (h ++ d) in (r, d ++ d')
    end.

(** [try: m  except Exception as e: handler e] *)
Definition try_except {A} (m : M A) (handler : exn -> M A) : M A :=
  fun h =>
    match m h with
    | (inr a, d) => (inr a, d)
    | (inl e, d) => let (r, d') := handler e (h ++ d) in (r, d ++ d')
    end.

(** A call to a service: logged, whatever its outcome. *)
Definition perform {A} (c : call) (answer : list call -> res A) : M A :=
  fun h => (answer h, [c]).

Declare Scope py_scope.
Delimit Scope py_scope with py.
Notation "x <- m ;; k" := (bind m (fun x => k))
  (at level 61, m at next level, right associativity) : py_scope.
Notation "m ;; k" := (bind m (fun _ => k))
  (at level 61, right associativity) : py_scope.
Local Open Scope py_scope.

(** The first component of a run: did it raise? *)
Definition raised {A} (r : res A * list call) : bool :=
  match fst r with inl _ => true | inr _ => false end.

(** ** tenacity *)

(** [@retry(stop=stop_after_attempt(n), wait=wait_fixed(_))]: run the body;
    when it raises (any exception) and attempts remain, run it again; when
    the last attempt raises, raise [RetryError] around that exception.
    [remaining] counts the attempts left after the current one. *)
Fixpoint retry_loop {A} (remaining : nat) (body : M A) : M A :=
  fun h =>
    match body h with
    | (inr a, d) => (inr a, d)
    | (inl e, d) =>
        match remaining with
        | O => (inl (RetryError e), d)
        | S r => let (x, d') := retry_loop r body (h ++ d) in (x, d ++ d')
        end
    end.

Definition retry {A} (stop_after_attempt : nat) (body : M A) : M A :=
  retry_loop (stop_after_attempt - 1) body.

(** ** The handler module *)

Section Handler.

Variable w : World.

(** [os.environ[name]] *)
Definition os_environ (name : string) : res str :=
  match environ w (lit name) with
  | Some v => inr v
  | None => inl (KeyError (JStr (lit name)))
  end.

(** [os.environ.get(name, 'true').lower() == 'true'] *)
Definition feature_flag (name : string) : bool :=
  let v := match environ w (lit name) with Some v => v | None => lit "true" end in
  str_eqb (lower v) (lit "true").

Definition ENABLE_OPENROUTER : bool := feature_flag "ENABLE_OPENROUTER".
Definition ENABLE_DYNAMODB : bool := feature_flag "ENABLE_DYNAMODB".
Definition ENABLE_SNS : bool := feature_flag "ENABLE_SNS".

(** A value inside an f-string. *)
Definition fmt (v : json) : str :=
  match v with
  | JStr s => s
  | _ => py_str w v
  end.

(** [s.encode('utf-8')] of the ASCII text [json.dumps] returns. *)
Definition encode_utf8 (s : string) : list Byte.byte := list_byte_of_string s.

(** [len(s)] *)
Definition len (s : string) : Z := Z.of_nat (String.length s).

(** [str(n)] of a length. *)
Definition str_of_len (n : Z) : str :=
  lit (NilZero.string_of_uint (N.to_uint (Z.to_N n))).

Definition get_api_key : M json :=
  try_except
    (name <- lift (os_environ "OPENROUTER_API_KEY_PARAM") ;;
     response <- perform (SSM_get_parameter name true)
                         (fun h => ssm_get_parameter w h name true) ;;
     lift (match getitem response (lit "Parameter") with
           | inl e => inl e
           | inr p => getitem p (lit "Value")
           end))
    (fun e => raise e).

Definition get_openrouter_client : M OpenAI :=
  key <- get_api_key ;;
  ret {| base_url := lit "https://openrouter.ai/api/v1"; api_key := key |}.

Definition openrouter_model : str := lit "mistralai/devstral-small-2505:free".

(** "Résume ce texte de manière concise en français :\n\n" *)
Definition openrouter_prompt : str :=
  lit "R" ++ [233%N] ++ lit "sume ce texte de mani" ++ [232%N]
  ++ lit "re concise en fran" ++ [231%N] ++ lit "ais :" ++ [10%N; 10%N].

(** The decorated body: one attempt. *)
Definition call_openrouter_attempt (text : str) : M ChatCompletion :=
  client <- get_openrouter_client ;;
  let messages :=
    JArr [JObj [(lit "role", JStr (lit "user"));
                (lit "content", JStr (openrouter_prompt ++ slice_to 1000 text))]] in
  perform (Chat_completions_create client openrouter_model messages)
          (fun h => chat_completions_create w h client openrouter_model messages).

Definition call_openrouter (text : str) : M ChatCompletion :=
  retry 3 (call_openrouter_attempt text).

(** The dict [response_body] of [send_cfn_response], its entries evaluated
    in the order they are written. *)
Definition response_body (event : json) (context : Context) (status : str)
    (response_data : json) : res json :=
  match get event (lit "PhysicalResourceId") with
  | inl e => inl e
  | inr physical =>
  match getitem event (lit "StackId") with
  | inl e => inl e
  | inr stack_id =>
  match getitem event (lit "RequestId") with
  | inl e => inl e
  | inr request_id =>
  match getitem event (lit "LogicalResourceId") with
  | inl e => inl e
  | inr logical_id =>
      inr (JObj
        [(lit "Status", JStr status);
         (lit "Reason",
          JStr (lit "See CloudWatch Log Stream: " ++ log_stream_name context));
         (lit "PhysicalResourceId",
          match physical with
          | Some v => v
          | None => JStr (log_stream_name context)
          end);
         (lit "StackId", stack_id);
         (lit "RequestId", request_id);
         (lit "LogicalResourceId", logical_id);
         (lit "Data", response_data)])
  end end end end.

Definition put_headers (response_body_json : string) : list (str * str) :=
  [(lit "Content-Type", lit "application/json");
   (lit "Content-Length", str_of_len (len response_body_json))].

Definition send_cfn_response (event : json) (context : Context) (status : str)
    (response_data : option json) : M bool :=
  let response_data :=
    match response_data with None => JObj [] | Some d => d end in
  body <- lift (response_body event context status response_data) ;;
  try_except
    (let response_body_json := json_dumps w body in
     url <- lift (getitem event (lit "ResponseURL")) ;;
     let payload := encode_utf8 response_body_json in
     let headers := put_headers response_body_json in
     perform (HTTP_PUT url payload headers)
             (fun h => http_request_put w h url payload headers) ;;
     ret true)
    (fun e => ret false).

(** [event['ResourceProperties'][name]] *)
Definition resource_property (event : json) (name : string) : res json :=
  match getitem event (lit "ResourceProperties") with
  | inl e => inl e
  | inr props => getitem props (lit name)
  end.

Definition apply_bucket_policy (event : json) (context : Context) : M json :=
  try_except
    (lift (getitem event (lit "RequestType")) ;;
     request_type <- lift (getitem event (lit "RequestType")) ;;
     if (eq_str request_type (lit "Create") || eq_str request_type (lit "Update"))%bool
     then
       bucket_name <- lift (resource_property event "BucketName") ;;
       policy_document_dict <- lift (resource_property event "PolicyDocument") ;;
       let policy_document_str := json_dumps w policy_document_dict in
       perform (S3_put_bucket_policy bucket_name policy_document_str)
               (fun h => s3_put_bucket_policy w h bucket_name policy_document_str) ;;
       send_cfn_response event context (lit "SUCCESS")
         (Some (JObj [(lit "Message",
                       JStr (lit "Bucket policy applied successfully to "
                             ++ fmt bucket_name))])) ;;
       ret JNull
     else
       request_type <- lift (getitem event (lit "RequestType")) ;;
       if eq_str request_type (lit "Delete")
       then
         bucket_name <- lift (resource_property event "BucketName") ;;
         try_except
           (perform (S3_delete_bucket_policy bucket_name)
                    (fun h => s3_delete_bucket_policy w h bucket_name))
           (fun e => ret tt) ;;
         send_cfn_response event context (lit "SUCCESS")
           (Some (JObj [(lit "Message",
                         JStr (lit "Bucket policy removal completed for "
                               ++ fmt bucket_name))])) ;;
         ret JNull
       else ret JNull)
    (fun e =>
       send_cfn_response event context (lit "FAILED")
         (Some (JObj [(lit "Error", JStr (exc_str w e))])) ;;
       ret JNull).

(** The test of line 125: [event.get('RequestType') and
    event.get('ResourceProperties') and 'BucketName' in
    event['ResourceProperties']]. *)
Definition is_custom_resource (event : json) : res bool :=
  match get event (lit "RequestType") with
  | inl e => inl e
  | inr request_type =>
      if match request_type with Some v => truthy v | None => false end
      then
        match get event (lit "ResourceProperties") with
        | inl e => inl e
        | inr props =>
            if match props with Some v => truthy v | None => false end
            then
              match getitem event (lit "ResourceProperties") with
              | inl e => inl e
              | inr p => contains (lit "BucketName") p
              end
            else inr false
        end
      else inr false
  end.

(** The validation of lines 129-130. *)
Definition validate_s3_event (event : json) : res unit :=
  match get event (lit "Records") with
  | inl e => inl e
  | inr records =>
      if match records with Some v => truthy v | None => false end
      then
        match getitem event (lit "Records") with
        | inl e => inl e
        | inr rs =>
        match getitem0 rs with
        | inl e => inl e
        | inr r0 =>
        match get r0 (lit "s3") with
        | inl e => inl e
        | inr s3 =>
            if match s3 with Some v => truthy v | None => false end
            then inr tt
            else inl (ValueError (lit "Invalid S3 event structure"))
        end end end
      else inl (ValueError (lit "Invalid S3 event structure"))
  end.

(** [event['Records'][0]['s3'][a][b]] *)
Definition s3_field (event : json) (a b : string) : res json :=
  match getitem event (lit "Records") with
  | inl e => inl e
  | inr rs =>
  match getitem0 rs with
  | inl e => inl e
  | inr r0 =>
  match getitem r0 (lit "s3") with
  | inl e => inl e
  | inr s3 =>
  match getitem s3 (lit a) with
  | inl e => inl e
  | inr x => getitem x (lit b)
  end end end end.

(** "Résumé non généré." *)
Definition placeholder_summary : str :=
  lit "R" ++ [233%N] ++ lit "sum" ++ [233%N] ++ lit " non g" ++ [233%N]
  ++ lit "n" ++ [233%N] ++ lit "r" ++ [233%N] ++ lit ".".

(** [resp.choices and len(resp.choices) > 0 and
    resp.choices[0].message.content]: the content when all three hold;
    reading [.content] of a missing message raises. *)
Definition first_content (resp : ChatCompletion) : res (option str) :=
  match choices resp with
  | Some (c :: _) =>
      match message c with
      | None => inl AttributeError
      | Some m =>
          match content m with
          | Some (x :: s) => inr (Some (x :: s))
          | _ => inr None
          end
      end
  | _ => inr None
  end.

(** Step 2 of [lambda_handler] (lines 144-155): the value of [summary]. *)
Definition generate_summary (text : str) : M str :=
  let summary := placeholder_summary in
  if ENABLE_OPENROUTER then
    try_except
      (resp <- call_openrouter text ;;
       usable <- lift (first_content resp) ;;
       match usable with
       | Some content => ret content
       | None => ret summary
       end)
      (fun e => ret summary)
  else ret summary.

(** "Résumé" *)
Definition key_resume : str := lit "R" ++ [233%N] ++ lit "sum" ++ [233%N].

Definition summary_item (key bucket : json) (text summary : str) : json :=
  JObj [(lit "NomFichier", key); (lit "Bucket", bucket);
        (lit "Texte", JStr text); (key_resume, JStr summary)].

(** Step 3 (lines 158-169). *)
Definition store_in_dynamodb (key bucket : json) (text summary : str) : M unit :=
  if ENABLE_DYNAMODB then
    try_except
      (table <- lift (os_environ "TABLE_NAME") ;;
       let item := summary_item key bucket text summary in
       let item_size := Z.of_nat (List.length (encode_utf8 (json_dumps w item))) in
       if item_size >? 400000
       then raise (ValueError (lit "Item size exceeds DynamoDB 400 KB limit"))
       else
         perform (DynamoDB_put_item table item)
                 (fun h => dynamodb_put_item w h table item))
      (fun e => ret tt)
  else ret tt.

Definition notification_subject (key : json) : str :=
  lit "Nouveau fichier dans S3 : " ++ fmt key.

(** "Un fichier nommé '{key}' a été déposé dans le bucket '{bucket}'.\n\n"
    "Résumé du contenu :\n\n{summary[:1000]}" *)
Definition notification_message (key bucket : json) (summary : str) : str :=
  lit "Un fichier nomm" ++ [233%N] ++ lit " '" ++ fmt key ++ lit "' a "
  ++ [233%N] ++ lit "t" ++ [233%N] ++ lit " d" ++ [233%N] ++ lit "pos"
  ++ [233%N] ++ lit " dans le bucket '" ++ fmt bucket ++ lit "'."
  ++ [10%N; 10%N]
  ++ key_resume ++ lit " du contenu :" ++ [10%N; 10%N] ++ slice_to 1000 summary.

(** Step 4 (lines 172-187). *)
Definition send_sns_notification (key bucket : json) (summary : str) : M unit :=
  if ENABLE_SNS then
    try_except
      (let subject := notification_subject key in
       let message := notification_message key bucket summary in
       topic <- lift (os_environ "TOPIC_ARN") ;;
       perform (SNS_publish topic subject message)
               (fun h => sns_publish w h topic subject message))
      (fun e => ret tt)
  else ret tt.

(** The two dicts the handler returns. *)
Definition status_result (code : Z) (text : string) : json :=
  JObj [(lit "statusCode", JInt code);
        (lit "body", JStr (lit (json_dumps w (JStr (lit text)))))].

Definition success_result : json := status_result 200 "Success".
Definition error_result : json := status_result 500 "Lambda error".

(** Lines 128-193: the S3 flow, after the custom-resource test failed. *)
Definition process_s3_event (event : json) : M json :=
  lift (validate_s3_event event) ;;
  bucket <- lift (s3_field event "bucket" "name") ;;
  key <- lift (s3_field event "object" "key") ;;
  text <- try_except
            (perform (S3_get_object bucket key)
                     (fun h => s3_get_object w h bucket key))
            (fun e => raise e) ;;
  summary <- generate_summary text ;;
  store_in_dynamodb key bucket text summary ;;
  send_sns_notification key bucket summary ;;
  ret success_result.

Definition lambda_handler (event : json) (context : Context) : M json :=
  try_except
    (custom <- lift (is_custom_resource event) ;;
     if custom then apply_bucket_policy event context
     else process_s3_event event)
    (fun e => ret error_result).

End Handler.

(** ** Observations on a log of calls *)

Definition is_put (c : call) : bool :=
  match c with HTTP_PUT _ _ _ => true | _ => false end.

Definition is_put_item (c : call) : bool :=
  match c with DynamoDB_put_item _ _ => true | _ => false end.

Definition is_publish (c : call) : bool :=
  match c with SNS_publish _ _ _ => true | _ => false end.

Definition is_chat (c : call) : bool :=
  match c with Chat_completions_create _ _ _ => true | _ => false end.

(** Calls of the summarization client: the parameter store and the model. *)
Definition is_summarizer_call (c : call) : bool :=
  match c with
  | SSM_get_parameter _ _ | Chat_completions_create _ _ _ => true
  | _ => false
  end.

(** Everything but the store write and the notification. *)
Definition is_other_step (c : call) : bool :=
  negb (is_put_item c) && negb (is_publish c).

(** The PUT [send_cfn_response] makes for a response body and a URL. *)
Definition callback_put (w : World) (url body : json) : call :=
  HTTP_PUT url (encode_utf8 (json_dumps w body)) (put_headers (json_dumps w body)).

(** What [send_cfn_response(event, context, status, data)] followed by the
    end of [apply_bucket_policy] amounts to: the function returns [None]
    after at most one PUT, or the reporter raises before any PUT. *)
Definition report (w : World) (event : json) (ctx : Context) (status : str)
    (data : json) : res json * list call :=
  match response_body event ctx status data with
  | inl e => (inl e, [])
  | inr body =>
      (inr JNull,
       match getitem event (lit "ResponseURL") with
       | inl _ => []
       | inr url => [callback_put w url body]
       end)
  end.

Definition applied_message (w : World) (bucket_name : json) : json :=
  JObj [(lit "Message",
         JStr (lit "Bucket policy applied successfully to " ++ fmt w bucket_name))].

Definition removed_message (w : World) (bucket_name : json) : json :=
  JObj [(lit "Message",
         JStr (lit "Bucket policy removal completed for " ++ fmt w bucket_name))].

Definition error_message (w : World) (e : exn) : json :=
  JObj [(lit "Error", JStr (exc_str w e))].

(** The summary step 2 leaves, given the outcome of [call_openrouter]. *)
Definition summary_from (outcome : res ChatCompletion) : str :=
  match outcome with
  | inr resp =>
      match first_content resp with
      | inr (Some text) => text
      | _ => placeholder_summary
      end
  | inl _ => placeholder_summary
  end.

(** [len(json.dumps(item).encode('utf-8'))] *)
Definition serialized_size (w : World) (item : json) : Z :=
  Z.of_nat (List.length (encode_utf8 (json_dumps w item))).

(** The calls of step 3. *)
Definition store_calls (w : World) (key bucket : json) (text summary : str)
    : list call :=
  if ENABLE_DYNAMODB w then
    match os_environ w "TABLE_NAME" with
    | inl _ => []
    | inr table =>
        if serialized_size w (summary_item key bucket text summary) >? 400000
        then []
        else [DynamoDB_put_item table (summary_item key bucket text summary)]
    end
  else [].

(** The calls of step 4. *)
Definition notify_calls (w : World) (key bucket : json) (summary : str)
    : list call :=
  if ENABLE_SNS w then
    match os_environ w "TOPIC_ARN" with
    | inl _ => []
    | inr topic =>
        [SNS_publish topic (notification_subject w key)
           (notification_message w key bucket summary)]
    end
  else [].

(** The bucket and key an S3 event names, once it passed the validation. *)
Definition s3_location (event : json) : res (json * json) :=
  match validate_s3_event event with
  | inl e => inl e
  | inr _ =>
      match s3_field event "bucket" "name" with
      | inl e => inl e
      | inr bucket =>
          match s3_field event "object" "key" with
          | inl e => inl e
          | inr key => inr (bucket, key)
          end
      end
  end.

(** The same world with another process environment. *)
Definition with_environ (env : str -> option str) (w : World) : World :=
  {| environ := env;
     json_dumps := json_dumps w;
     py_str := py_str w;
     exc_str := exc_str w;
     s3_put_bucket_policy := s3_put_bucket_policy w;
     s3_delete_bucket_policy := s3_delete_bucket_policy w;
     s3_get_object := s3_get_object w;
     ssm_get_parameter := ssm_get_parameter w;
     chat_completions_create := chat_completions_create w;
     dynamodb_put_item := dynamodb_put_item w;
     sns_publish := sns_publish w;
     http_request_put := http_request_put w |}.


Definition with_chat_completions
    (answer : list call -> OpenAI -> str -> json -> res ChatCompletion)
    (w : World) : World :=
  {| environ := environ w;
     json_dumps := json_dumps w;
     py_str := py_str w;
     exc_str := exc_str w;
     s3_put_bucket_policy := s3_put_bucket_policy w;
     s3_delete_bucket_policy := s3_delete_bucket_policy w;
     s3_get_object := s3_get_object w;
     ssm_get_parameter := ssm_get_parameter w;
     chat_completions_create := answer;
     dynamodb_put_item := dynamodb_put_item w;
     sns_publish := sns_publish w;
     http_request_put := http_request_put w |}.

(** [env] gives every variable but [flag] the value it has in [w]. *)
Definition differs_only_at (flag : string) (env : str -> option str) (w : World)
    : Prop :=
  forall name, name <> lit flag -> env name = environ w name.

Definition not_put_item (c : call) : bool := negb (is_put_item c).
Definition not_publish (c : call) : bool := negb (is_publish c).

(** The summary the flow carries into steps 3 and 4. *)
Definition flow_summary (w : World) (text : str) (h : list call) : str :=
  if ENABLE_OPENROUTER w
  then summary_from (fst (call_openrouter w text h))
  else placeholder_summary.

(** Calls of the provisioning flow: the bucket policy and the callback. *)
Definition is_provisioning_call (c : call) : bool :=
  match c with
  | S3_put_bucket_policy _ _ | S3_delete_bucket_policy _ | HTTP_PUT _ _ _ => true
  | _ => false
  end.

(** Calls of the ingestion flow. *)
Definition is_ingestion_call (c : call) : bool :=
  match c with
  | S3_get_object _ _ | SSM_get_parameter _ _ | Chat_completions_create _ _ _
  | DynamoDB_put_item _ _ | SNS_publish _ _ _ => true
  | _ => false
  end.

(** ** A concrete world and concrete events, for examples *)

Module Example.

Definition quote : string := String (ascii_of_nat 34) EmptyString.
Definition backslash : string := String (ascii_of_nat 92) EmptyString.

Definition hex_digit (n : N) : ascii :=
  ascii_of_N (if N.ltb n 10 then 48 + n else 87 + n).

(** [\uXXXX] *)
Definition u_escape (c : N) : string :=
  (backslash ++ "u"
   ++ String (hex_digit (N.shiftr c 12 mod 16))
        (String (hex_digit (N.shiftr c 8 mod 16))
           (String (hex_digit (N.shiftr c 4 mod 16))
              (String (hex_digit (c mod 16)) EmptyString))))%string.

Definition dumps_char (c : N) : string :=
  if N.eqb c 34 then (backslash ++ quote)%string
  else if N.eqb c 92 then (backslash ++ backslash)%string
  else if N.eqb c 10 then (backslash ++ "n")%string
  else if (N.leb 32 c && N.ltb c 128)%bool then String (ascii_of_N c) EmptyString
  else if N.ltb c 65536 then u_escape c
  else (u_escape (55296 + N.shiftr (c - 65536) 10)
        ++ u_escape (56320 + (c - 65536) mod 1024))%string.

Fixpoint dumps_chars (s : str) : string :=
  match s with
  | [] => EmptyString
  | c :: s' => (dumps_char c ++ dumps_chars s')%string
  end.

Definition dumps_str (s : str) : string := (quote ++ dumps_chars s ++ quote)%string.

(** A serializer in the format of [json.dumps]; a float is rendered by its
    class only, which is all the examples need. *)
Fixpoint dumps (v : json) : string :=
  match v with
  | JNull => "null"
  | JBool true => "true"
  | JBool false => "false"
  | JInt z => NilZero.string_of_int (Z.to_int z)
  | JFloat f => if PrimFloat.eqb f f then "0.0" else "NaN"
  | JStr s => dumps_str s
  | JArr l =>
      ("[" ++
       (fix items (l : list json) : string :=
          match l with
          | [] => EmptyString
          | x :: r =>
              (dumps x ++ match r with [] => EmptyString | _ => ", " ++ items r end)
          end) l
       ++ "]")
  | JObj d =>
      ("{" ++
       (fix items (d : list (str * json)) : string :=
          match d with
          | [] => EmptyString
          | (k, x) :: r =>
              (dumps_str k ++ ": " ++ dumps x
               ++ match r with [] => EmptyString | _ => ", " ++ items r end)
          end) d
       ++ "}")
  end%string.

Definition env (name : str) : option str :=
  if str_eqb name (lit "OPENROUTER_API_KEY_PARAM") then Some (lit "/openrouter/key")
  else if str_eqb name (lit "TABLE_NAME") then Some (lit "summaries")
  else if str_eqb name (lit "TOPIC_ARN") then Some (lit "arn:aws:sns:topic")
  else None.

Definition reply : ChatCompletion :=
  {| choices := Some [{| message := Some {| content := Some (lit "Un texte.") |} |}] |}.

(** Every service answers; the object holds [text]. *)
Definition world (text : str) : World :=
  {| environ := env;
     json_dumps := dumps;
     py_str := fun v => lit (dumps v);
     exc_str := fun _ => lit "error";
     s3_put_bucket_policy := fun _ _ _ => inr tt;
     s3_delete_bucket_policy := fun _ _ => inr tt;
     s3_get_object := fun _ _ _ => inr text;
     ssm_get_parameter := fun _ _ _ =>
       inr (JObj [(lit "Parameter", JObj [(lit "Value", JStr (lit "sk-1"))])]);
     chat_completions_create := fun _ _ _ _ => inr reply;
     dynamodb_put_item := fun _ _ _ => inr tt;
     sns_publish := fun _ _ _ _ => inr tt;
     http_request_put := fun _ _ _ _ => inr 200 |}.

Definition hello : str := lit "hello world".


(** The model cannot be reached. *)
Definition offline : World :=
  with_chat_completions (fun _ _ _ _ => inl (ServiceError (lit "timeout")))
    (world hello).

(** Persistence switched off. *)
Definition env_no_store (name : str) : option str :=
  if str_eqb name (lit "ENABLE_DYNAMODB") then Some (lit "false") else env name.

(** Notification switched off. *)
Definition env_no_notify (name : str) : option str :=
  if str_eqb name (lit "ENABLE_SNS") then Some (lit "False") else env name.

(** [n] doublings of a text. *)
Fixpoint doubled (n : nat) (s : str) : str :=
  match n with
  | O => s
  | S n' => doubled n' (s ++ s)
  end.

(** 524288 characters. *)
Definition long_text : str := doubled 19 (lit "a").

Definition context : Context := {| log_stream_name := lit "2026/11/04/[1]abc" |}.

Definition s3_event : json :=
  JObj [(lit "Records",
         JArr [JObj [(lit "s3",
                      JObj [(lit "bucket", JObj [(lit "name", JStr (lit "b1"))]);
                            (lit "object", JObj [(lit "key", JStr (lit "k1.txt"))])])]])].

Definition identifiers : list (str * json) :=
  [(lit "ResponseURL", JStr (lit "http://x"));
   (lit "StackId", JStr (lit "stack-1"));
   (lit "RequestId", JStr (lit "req-1"));
   (lit "LogicalResourceId", JStr (lit "BucketPolicy"))].

Definition cfn_event (request_type : string) : json :=
  JObj ([(lit "RequestType", JStr (lit request_type));
         (lit "ResourceProperties",
          JObj [(lit "BucketName", JStr (lit "b1"));
                (lit "PolicyDocument", JObj [(lit "Version", JStr (lit "2012-10-17"))])])]
        ++ identifiers).

(** A request type and records, but no resource properties. *)
Definition mixed_event : json :=
  JObj [(lit "RequestType", JStr (lit "Create"));
        (lit "Records",
         JArr [JObj [(lit "s3",
                      JObj [(lit "bucket", JObj [(lit "name", JStr (lit "b1"))]);
                            (lit "object", JObj [(lit "key", JStr (lit "k1.txt"))])])]])].


End Example.

(** ** The provisioning flow in closed form *)

(** The outcome of [apply_bucket_policy] written out by cases: what raises
    before a report becomes a FAILED report after the calls [made] so far;
    the report itself can only raise before its PUT. *)
Definition provisioning_outcome (w : World) (event : json) (ctx : Context)
    (h : list call) : res json * list call :=
  let failed (e : exn) (made : list call) :=
    (fst (report w event ctx (lit "FAILED") (error_message w e)),
     made ++ snd (report w event ctx (lit "FAILED") (error_message w e))) in
  let succeeded (data : json) (made : call) :=
    (fst (report w event ctx (lit "SUCCESS") data),
     made :: snd (report w event ctx (lit "SUCCESS") data)) in
  match getitem event (lit "RequestType") with
  | inl e => failed e []
  | inr rt =>
      if (eq_str rt (lit "Create") || eq_str rt (lit "Update"))%bool then
        match resource_property event "BucketName" with
        | inl e => failed e []
        | inr bucket =>
            match resource_property event "PolicyDocument" with
            | inl e => failed e []
            | inr policy =>
                let c := S3_put_bucket_policy bucket (json_dumps w policy) in
                match s3_put_bucket_policy w h bucket (json_dumps w policy) with
                | inl e => failed e [c]
                | inr _ => succeeded (applied_message w bucket) c
                end
            end
        end
      else if eq_str rt (lit "Delete") then
        match resource_property event "BucketName" with
        | inl e => failed e []
        | inr bucket =>
            succeeded (removed_message w bucket) (S3_delete_bucket_policy bucket)
        end
      else (inr JNull, [])
  end.

(** The request type is one the flow handles. *)
Definition handled_request_type (rt : json) : bool :=
  (eq_str rt (lit "Create") || eq_str rt (lit "Update")
   || eq_str rt (lit "Delete"))%bool.


(** Values that are neither a dict, a list nor a string. *)
Definition is_scalar (v : json) : bool :=
  match v with
  | JNull | JBool _ | JInt _ | JFloat _ => true
  | _ => false
  end.

Definition is_get_parameter (c : call) : bool :=
  match c with SSM_get_parameter _ _ => true | _ => false end.

Definition is_get_object (c : call) : bool :=
  match c with S3_get_object _ _ => true | _ => false end.

(** The [messages] argument of the completion request for a text. *)
Definition chat_messages (text : str) : json :=
  JArr [JObj [(lit "role", JStr (lit "user"));
              (lit "content", JStr (openrouter_prompt ++ slice_to 1000 text))]].

(** The spellings of a flag's value that enable it. *)
Definition spells_true (v : str) : Prop :=
  match v with
  | [a; b; c; d] =>
      (a = 84 \/ a = 116)%N /\ (b = 82 \/ b = 114)%N /\
      (c = 85 \/ c = 117)%N /\ (d = 69 \/ d = 101)%N
  | _ => False
  end.

Module More.

(** A world in which the isolated calls all raise. *)
Definition unreliable (text : str) : World :=
  {| environ := Example.env;
     json_dumps := Example.dumps;
     py_str := fun v => lit (Example.dumps v);
     exc_str := fun _ => lit "error";
     s3_put_bucket_policy := fun _ _ _ => inr tt;
     s3_delete_bucket_policy := fun _ _ => inl (ServiceError (lit "denied"));
     s3_get_object := fun _ _ _ => inr text;
     ssm_get_parameter := fun _ _ _ =>
       inr (JObj [(lit "Parameter", JObj [(lit "Value", JStr (lit "sk-1"))])]);
     chat_completions_create := fun _ _ _ _ => inr Example.reply;
     dynamodb_put_item := fun _ _ _ => inl (ServiceError (lit "throttled"));
     sns_publish := fun _ _ _ _ => inl (ServiceError (lit "no topic"));
     http_request_put := fun _ _ _ _ => inl (ServiceError (lit "unreachable")) |}.


(** No variable is set. *)
Definition empty_env (name : str) : option str := None.

(** The notification flag in capitals, the persistence flag as a digit. *)
Definition env_spellings (name : str) : option str :=
  if str_eqb name (lit "ENABLE_SNS") then Some (lit "TRUE")
  else if str_eqb name (lit "ENABLE_DYNAMODB") then Some (lit "1")
  else Example.env name.

(** Summarization switched off, the rest configured. *)
Definition env_no_summary (name : str) : option str :=
  if str_eqb name (lit "ENABLE_OPENROUTER") then Some (lit "no")
  else Example.env name.

Definition policy : json := JObj [(lit "Version", JStr (lit "2012-10-17"))].

Definition request (request_type : string) (properties : json)
    (rest : list (str * json)) : json :=
  JObj ([(lit "RequestType", JStr (lit request_type));
         (lit "ResourceProperties", properties)] ++ rest).

Definition properties : json :=
  JObj [(lit "BucketName", JStr (lit "b1")); (lit "PolicyDocument", policy)].



(** The identifiers without the stack id. *)
Definition identifiers_without_stack : list (str * json) :=
  [(lit "ResponseURL", JStr (lit "http://x"));
   (lit "RequestId", JStr (lit "req-1"));
   (lit "LogicalResourceId", JStr (lit "BucketPolicy"))].


Definition record (bucket key : string) : json :=
  JObj [(lit "s3",
         JObj [(lit "bucket", JObj [(lit "name", JStr (lit bucket))]);
               (lit "object", JObj [(lit "key", JStr (lit key))])])].

(** A text whose record serializes to exactly 400,000 bytes in the example
    world, and one a character longer. *)
Definition text_at_limit : str := List.repeat 97%N (Z.to_nat 399914).
Definition text_over_limit : str := List.repeat 97%N (Z.to_nat 399915).


(** Two records. *)
Definition two_records : json :=
  JObj [(lit "Records", JArr [record "b1" "k1.txt"; record "b2" "k2.txt"])].

End More.

(** * Properties *)

(** ** Strings and dicts *)

Lemma str_eqb_refl (s : str) : str_eqb s s = true.
Proof.
  induction s as [|c s IH]; simpl; [reflexivity|].
  now rewrite N.eqb_refl, IH.
Qed.

Lemma str_eqb_eq (a b : str) : str_eqb a b = true <-> a = b.
Proof.
  split.
  - revert b; induction a as [|x a IH]; intros [|y b]; simpl; try discriminate.
    + reflexivity.
    + intros H. apply andb_true_iff in H as [Hx Hab].
      apply N.eqb_eq in Hx. f_equal; [exact Hx | now apply IH].
  - intros ->. apply str_eqb_refl.
Qed.

Lemma eq_str_true (v : json) (s : str) : eq_str v s = true <-> v = JStr s.
Proof.
  split.
  - destruct v; simpl; try discriminate.
    intros H. apply str_eqb_eq in H. now subst.
  - intros ->. simpl. apply str_eqb_refl.
Qed.

Lemma getitem_get (event : json) (k : str) (v : json) :
  getitem event k = inr v -> get event k = inr (Some v).
Proof.
  destruct event; simpl; try discriminate.
  destruct (dict_get k d); [|discriminate].
  intros H. now inversion H.
Qed.

Lemma get_getitem (event : json) (k : str) (v : json) :
  get event k = inr (Some v) -> getitem event k = inr v.
Proof.
  destruct event; simpl; try discriminate.
  intros H. inversion H as [H']. now rewrite H'.
Qed.


(** ** Running computations *)

Lemma bind_lift_inl {A B} (e : exn) (f : A -> M B) (h : list call) :
  bind (lift (inl e)) f h = (inl e, []).
Proof. reflexivity. Qed.

Lemma bind_lift_inr {A B} (a : A) (f : A -> M B) (h : list call) :
  bind (lift (inr a)) f h = f a h.
Proof.
  unfold bind, lift. rewrite app_nil_r. now destruct (f a h).
Qed.

Lemma bind_ret {A B} (a : A) (f : A -> M B) (h : list call) :
  bind (ret a) f h = f a h.
Proof. apply (bind_lift_inr a f h). Qed.

Lemma bind_run {A B} (m : M A) (f : A -> M B) (h : list call) :
  bind m f h =
  match fst (m h) with
  | inl e => (inl e, snd (m h))
  | inr a => (fst (f a (h ++ snd (m h))), snd (m h) ++ snd (f a (h ++ snd (m h))))
  end.
Proof.
  unfold bind. destruct (m h) as [[e|a] d]; simpl; [reflexivity|].
  now destruct (f a (h ++ d)).
Qed.

Lemma try_except_run {A} (m : M A) (handler : exn -> M A) (h : list call) :
  try_except m handler h =
  match fst (m h) with
  | inr a => (inr a, snd (m h))
  | inl e => (fst (handler e (h ++ snd (m h))),
              snd (m h) ++ snd (handler e (h ++ snd (m h))))
  end.
Proof.
  unfold try_except. destruct (m h) as [[e|a] d]; simpl; [|reflexivity].
  now destruct (handler e (h ++ d)).
Qed.

(** A handler that returns a value makes the block total. *)
Lemma try_except_ret {A} (m : M A) (a0 : A) (h : list call) :
  try_except m (fun _ => ret a0) h =
  (inr (match fst (m h) with inr a => a | inl _ => a0 end), snd (m h)).
Proof.
  rewrite try_except_run. destruct (fst (m h)); simpl; [|reflexivity].
  now rewrite app_nil_r.
Qed.

(** [except: raise] changes nothing. *)
Lemma try_except_reraise {A} (m : M A) (h : list call) :
  try_except m (fun e => raise e) h = m h.
Proof.
  unfold try_except, raise. destruct (m h) as [[e|a] d]; [|reflexivity].
  now rewrite app_nil_r.
Qed.

(** ** The callback reporter *)

Lemma send_cfn_response_run (w : World) (event : json) (ctx : Context)
    (status : str) (data : option json) (h : list call) :
  send_cfn_response w event ctx status data h =
  match response_body event ctx status
          (match data with None => JObj [] | Some d => d end) with
  | inl e => (inl e, [])
  | inr body =>
      match getitem event (lit "ResponseURL") with
      | inl _ => (inr false, [])
      | inr url =>
          (inr (match http_request_put w h url
                        (encode_utf8 (json_dumps w body))
                        (put_headers (json_dumps w body)) with
                | inl _ => false
                | inr _ => true
                end),
           [callback_put w url body])
      end
  end.
Proof.
  unfold send_cfn_response.
  destruct (response_body _ _ _ _) as [e|body].
  - apply bind_lift_inl.
  - rewrite bind_lift_inr, try_except_ret.
    destruct (getitem event (lit "ResponseURL")) as [e|url].
    + now rewrite bind_lift_inl.
    + rewrite bind_lift_inr. unfold bind, perform, ret, callback_put.
      destruct (http_request_put w h url _ _); reflexivity.
Qed.

Lemma response_body_inv (event : json) (ctx : Context) (status : str)
    (data body : json) :
  response_body event ctx status data = inr body ->
  exists physical stack_id request_id logical_id,
    get event (lit "PhysicalResourceId") = inr physical /\
    getitem event (lit "StackId") = inr stack_id /\
    getitem event (lit "RequestId") = inr request_id /\
    getitem event (lit "LogicalResourceId") = inr logical_id /\
    body = JObj
      [(lit "Status", JStr status);
       (lit "Reason",
        JStr (lit "See CloudWatch Log Stream: " ++ log_stream_name ctx));
       (lit "PhysicalResourceId",
        match physical with
        | Some v => v
        | None => JStr (log_stream_name ctx)
        end);
       (lit "StackId", stack_id);
       (lit "RequestId", request_id);
       (lit "LogicalResourceId", logical_id);
       (lit "Data", data)].
Proof.
  unfold response_body.
  destruct (get event _) as [|physical]; [discriminate|].
  destruct (getitem event (lit "StackId")) as [|sid]; [discriminate|].
  destruct (getitem event (lit "RequestId")) as [|rid]; [discriminate|].
  destruct (getitem event (lit "LogicalResourceId")) as [|lid]; [discriminate|].
  intros H. inversion H. now exists physical, sid, rid, lid.
Qed.

Lemma response_body_identifiers (event : json) (ctx : Context) (status : str)
    (data : json) (stack_id request_id logical_id : json) :
  getitem event (lit "StackId") = inr stack_id ->
  getitem event (lit "RequestId") = inr request_id ->
  getitem event (lit "LogicalResourceId") = inr logical_id ->
  exists body, response_body event ctx status data = inr body.
Proof.
  intros Hs Hr Hl. unfold response_body. rewrite Hs, Hr, Hl.
  destruct event; simpl in *; try discriminate. eauto.
Qed.

(** Whether the body can be built depends on the event alone. *)
Lemma response_body_error (event : json) (ctx : Context) (s1 s2 : str)
    (d1 d2 : json) (e : exn) :
  response_body event ctx s1 d1 = inl e ->
  response_body event ctx s2 d2 = inl e.
Proof.
  unfold response_body.
  destruct (get event _); [trivial|].
  destruct (getitem event (lit "StackId")); [trivial|].
  destruct (getitem event (lit "RequestId")); [trivial|].
  destruct (getitem event (lit "LogicalResourceId")); [trivial|discriminate].
Qed.


Lemma send_then_return (w : World) (event : json) (ctx : Context)
    (status : str) (data : json) (h : list call) :
  bind (send_cfn_response w event ctx status (Some data)) (fun _ => ret JNull) h
  = report w event ctx status data.
Proof.
  rewrite bind_run, send_cfn_response_run. unfold report.
  destruct (response_body event ctx status data) as [e|body]; [reflexivity|].
  destruct (getitem event (lit "ResponseURL")) as [e|url]; reflexivity.
Qed.

Lemma report_puts (w : World) (event : json) (ctx : Context) (status : str)
    (data : json) :
  filter is_put (snd (report w event ctx status data))
  = snd (report w event ctx status data).
Proof.
  unfold report. destruct (response_body _ _ _ _); [reflexivity|].
  destruct (getitem event _); reflexivity.
Qed.

(** ** The provisioning flow *)

(** A Delete request: the removal is attempted, its outcome is ignored, and
    SUCCESS is reported. *)
Lemma apply_bucket_policy_delete (w : World) (event : json) (ctx : Context)
    (bucket : json) (h : list call) :
  getitem event (lit "RequestType") = inr (JStr (lit "Delete")) ->
  resource_property event "BucketName" = inr bucket ->
  apply_bucket_policy w event ctx h =
  (fst (report w event ctx (lit "SUCCESS") (removed_message w bucket)),
   S3_delete_bucket_policy bucket
   :: snd (report w event ctx (lit "SUCCESS") (removed_message w bucket))).
Proof.
  intros Hrt Hb. unfold apply_bucket_policy.
  rewrite try_except_run.
  rewrite Hrt, !bind_lift_inr. cbn [eq_str]. 
  replace (str_eqb (lit "Delete") (lit "Create") || str_eqb (lit "Delete") (lit "Update"))%bool
    with false by reflexivity.
  rewrite bind_lift_inr. cbn [eq_str].
  replace (str_eqb (lit "Delete") (lit "Delete")) with true by reflexivity.
  rewrite Hb, bind_lift_inr.
  rewrite bind_run, try_except_ret. cbn [fst snd perform].
  fold (removed_message w bucket).
  rewrite send_then_return.
  unfold report at 1 2 3 4.
  destruct (response_body event ctx (lit "SUCCESS") (removed_message w bucket))
    as [e|body] eqn:Hbody.
  - cbn [fst snd]. fold (error_message w e). rewrite !send_then_return.
    unfold report.
    rewrite (response_body_error _ _ _ (lit "FAILED") _ (error_message w e) Hbody).
    rewrite Hbody. reflexivity.
  - unfold report. rewrite Hbody. reflexivity.
Qed.

(** A Create or Update request: whatever raises before the report is turned
    into a FAILED report; otherwise SUCCESS is reported. *)
Lemma apply_bucket_policy_create_update (w : World) (event : json)
    (ctx : Context) (rt : json) (h : list call) :
  getitem event (lit "RequestType") = inr rt ->
  (eq_str rt (lit "Create") || eq_str rt (lit "Update"))%bool = true ->
  let failed e pre :=
    (fst (report w event ctx (lit "FAILED") (error_message w e)),
     pre ++ snd (report w event ctx (lit "FAILED") (error_message w e))) in
  apply_bucket_policy w event ctx h =
  match resource_property event "BucketName" with
  | inl e => failed e []
  | inr bucket =>
      match resource_property event "PolicyDocument" with
      | inl e => failed e []
      | inr policy =>
          let c := S3_put_bucket_policy bucket (json_dumps w policy) in
          match s3_put_bucket_policy w h bucket (json_dumps w policy) with
          | inl e => failed e [c]
          | inr _ =>
              (fst (report w event ctx (lit "SUCCESS") (applied_message w bucket)),
               c :: snd (report w event ctx (lit "SUCCESS") (applied_message w bucket)))
          end
      end
  end.
Proof.
  intros Hrt Hcu failed. unfold apply_bucket_policy.
  rewrite try_except_run.
  rewrite Hrt, !bind_lift_inr, Hcu.
  destruct (resource_property event "BucketName") as [e|bucket].
  { rewrite bind_lift_inl. cbn [fst snd]. fold (error_message w e).
    now rewrite send_then_return. }
  rewrite bind_lift_inr.
  destruct (resource_property event "PolicyDocument") as [e|policy].
  { rewrite bind_lift_inl. cbn [fst snd]. fold (error_message w e).
    now rewrite send_then_return. }
  rewrite bind_lift_inr, bind_run. cbn [fst snd perform].
  destruct (s3_put_bucket_policy w h bucket (json_dumps w policy)) as [e|[]].
  { cbn [fst snd]. fold (error_message w e). now rewrite send_then_return. }
  fold (applied_message w bucket). rewrite send_then_return.
  unfold report at 1 2 3 4.
  destruct (response_body event ctx (lit "SUCCESS") (applied_message w bucket))
    as [e|body] eqn:Hbody.
  - cbn [fst snd]. fold (error_message w e). rewrite !send_then_return.
    unfold report.
    rewrite (response_body_error _ _ _ (lit "FAILED") _ (error_message w e) Hbody).
    rewrite Hbody. reflexivity.
  - unfold report. rewrite Hbody. reflexivity.
Qed.

(** Any other request type: neither branch is taken, nothing is reported. *)
Lemma apply_bucket_policy_other (w : World) (event : json) (ctx : Context)
    (rt : json) (h : list call) :
  getitem event (lit "RequestType") = inr rt ->
  eq_str rt (lit "Create") = false ->
  eq_str rt (lit "Update") = false ->
  eq_str rt (lit "Delete") = false ->
  apply_bucket_policy w event ctx h = (inr JNull, []).
Proof.
  intros Hrt Hc Hu Hd. unfold apply_bucket_policy.
  rewrite try_except_run, Hrt, !bind_lift_inr, Hc, Hu. cbn [orb].
  rewrite bind_lift_inr, Hd. reflexivity.
Qed.

(** The callback of a well-formed Create, Update or Delete request: one
    PUT, with status SUCCESS or FAILED. *)
Lemma apply_bucket_policy_one_put (w : World) (event : json) (ctx : Context)
    (rt url stack_id request_id logical_id : json) (h : list call) :
  getitem event (lit "RequestType") = inr rt ->
  (eq_str rt (lit "Create") || eq_str rt (lit "Update")
   || eq_str rt (lit "Delete"))%bool = true ->
  getitem event (lit "ResponseURL") = inr url ->
  getitem event (lit "StackId") = inr stack_id ->
  getitem event (lit "RequestId") = inr request_id ->
  getitem event (lit "LogicalResourceId") = inr logical_id ->
  exists status data body,
    fst (apply_bucket_policy w event ctx h) = inr JNull /\
    filter is_put (snd (apply_bucket_policy w event ctx h)) = [callback_put w url body] /\
    response_body event ctx status data = inr body /\
    (status = lit "SUCCESS" \/ status = lit "FAILED").
Proof.
  intros Hrt Hkind Hurl Hs Hr Hl.
  assert (Hrep : forall status data, exists body,
            response_body event ctx status data = inr body /\
            report w event ctx status data = (inr JNull, [callback_put w url body])).
  { intros status data.
    destruct (response_body_identifiers event ctx status data Hs Hr Hl) as [body Hb].
    exists body. split; [exact Hb|]. unfold report. now rewrite Hb, Hurl. }
  destruct (eq_str rt (lit "Create") || eq_str rt (lit "Update"))%bool eqn:Hcu.
  - rewrite (apply_bucket_policy_create_update w event ctx h Hrt Hcu). cbv zeta.
    destruct (resource_property event "BucketName") as [e|bucket].
    { destruct (Hrep (lit "FAILED") (error_message w e)) as (body & Hb & ->).
      exists (lit "FAILED"), (error_message w e), body. auto. }
    destruct (resource_property event "PolicyDocument") as [e|policy].
    { destruct (Hrep (lit "FAILED") (error_message w e)) as (body & Hb & ->).
      exists (lit "FAILED"), (error_message w e), body. auto. }
    destruct (s3_put_bucket_policy w h bucket (json_dumps w policy)) as [e|u].
    { destruct (Hrep (lit "FAILED") (error_message w e)) as (body & Hb & ->).
      exists (lit "FAILED"), (error_message w e), body. auto. }
    destruct (Hrep (lit "SUCCESS") (applied_message w bucket)) as (body & Hb & ->).
    exists (lit "SUCCESS"), (applied_message w bucket), body. auto.
  - cbn [orb] in Hkind. apply eq_str_true in Hkind. subst rt.
    destruct (resource_property event "BucketName") as [e|bucket] eqn:Hbucket.
    + (* the bucket name cannot be read: FAILED *)
      destruct (Hrep (lit "FAILED") (error_message w e)) as (body & Hb & Hrun).
      exists (lit "FAILED"), (error_message w e), body.
      unfold apply_bucket_policy.
      rewrite try_except_run, Hrt, !bind_lift_inr. cbn [eq_str].
      replace (str_eqb (lit "Delete") (lit "Create")
               || str_eqb (lit "Delete") (lit "Update"))%bool
        with false by reflexivity.
      rewrite bind_lift_inr. cbn [eq_str].
      replace (str_eqb (lit "Delete") (lit "Delete")) with true by reflexivity.
      rewrite Hbucket, bind_lift_inl. cbn [fst snd].
      fold (error_message w e). rewrite send_then_return, Hrun. auto.
    + rewrite (apply_bucket_policy_delete w event ctx h Hrt Hbucket).
      destruct (Hrep (lit "SUCCESS") (removed_message w bucket)) as (body & Hb & ->).
      exists (lit "SUCCESS"), (removed_message w bucket), body. auto.
Qed.

Lemma report_calls (w : World) (event : json) (ctx : Context) (status : str)
    (data : json) :
  forallb is_provisioning_call (snd (report w event ctx status data)) = true.
Proof.
  unfold report. destruct (response_body _ _ _ _); [reflexivity|].
  now destruct (getitem event _).
Qed.

(** The provisioning flow calls the bucket-policy API and the callback URL,
    and nothing else. *)
Lemma apply_bucket_policy_calls (w : World) (event : json) (ctx : Context)
    (h : list call) :
  forallb is_provisioning_call (snd (apply_bucket_policy w event ctx h)) = true.
Proof.
  destruct (getitem event (lit "RequestType")) as [e|rt] eqn:Hrt.
  { unfold apply_bucket_policy.
    rewrite try_except_run, Hrt, bind_lift_inl. cbn [fst snd app].
    fold (error_message w e). rewrite send_then_return. apply report_calls. }
  destruct (eq_str rt (lit "Create") || eq_str rt (lit "Update"))%bool eqn:Hcu.
  { rewrite (apply_bucket_policy_create_update w event ctx h Hrt Hcu). cbv zeta.
    destruct (resource_property event "BucketName") as [e|bucket];
      [apply report_calls|].
    destruct (resource_property event "PolicyDocument") as [e|policy];
      [apply report_calls|].
    destruct (s3_put_bucket_policy w h bucket _) as [e|u];
      cbn [snd app forallb is_provisioning_call andb]; apply report_calls. }
  apply orb_false_iff in Hcu as [Hc Hu].
  destruct (eq_str rt (lit "Delete")) eqn:Hd.
  - apply eq_str_true in Hd. subst rt.
    destruct (resource_property event "BucketName") as [e|bucket] eqn:Hbucket.
    + unfold apply_bucket_policy.
      rewrite try_except_run, Hrt, !bind_lift_inr. cbn [eq_str].
      replace (str_eqb (lit "Delete") (lit "Create")
               || str_eqb (lit "Delete") (lit "Update"))%bool
        with false by reflexivity.
      rewrite bind_lift_inr. cbn [eq_str].
      replace (str_eqb (lit "Delete") (lit "Delete")) with true by reflexivity.
      rewrite Hbucket, bind_lift_inl. cbn [fst snd app].
      fold (error_message w e). rewrite send_then_return. apply report_calls.
    + rewrite (apply_bucket_policy_delete w event ctx h Hrt Hbucket).
      cbn [snd forallb is_provisioning_call andb]. apply report_calls.
  - now rewrite (apply_bucket_policy_other w event ctx h Hrt Hc Hu Hd).
Qed.

(** The provisioning flow returns [None], unless the reporter raises. *)
Lemma apply_bucket_policy_value (w : World) (event : json) (ctx : Context)
    (h : list call) (v : json) :
  fst (apply_bucket_policy w event ctx h) = inr v -> v = JNull.
Proof.
  assert (Hreport : forall status data,
            fst (report w event ctx status data) = inr v -> v = JNull).
  { intros status data. unfold report.
    destruct (response_body _ _ _ _); cbn [fst]; congruence. }
  destruct (getitem event (lit "RequestType")) as [e|rt] eqn:Hrt.
  { unfold apply_bucket_policy.
    rewrite try_except_run, Hrt, bind_lift_inl. cbn [fst snd app].
    fold (error_message w e). rewrite send_then_return. apply Hreport. }
  destruct (eq_str rt (lit "Create") || eq_str rt (lit "Update"))%bool eqn:Hcu.
  { rewrite (apply_bucket_policy_create_update w event ctx h Hrt Hcu). cbv zeta.
    destruct (resource_property event "BucketName") as [e|bucket];
      [apply Hreport|].
    destruct (resource_property event "PolicyDocument") as [e|policy];
      [apply Hreport|].
    destruct (s3_put_bucket_policy w h bucket _) as [e|u]; apply Hreport. }
  apply orb_false_iff in Hcu as [Hc Hu].
  destruct (eq_str rt (lit "Delete")) eqn:Hd.
  - apply eq_str_true in Hd. subst rt.
    destruct (resource_property event "BucketName") as [e|bucket] eqn:Hbucket.
    + unfold apply_bucket_policy.
      rewrite try_except_run, Hrt, !bind_lift_inr. cbn [eq_str].
      replace (str_eqb (lit "Delete") (lit "Create")
               || str_eqb (lit "Delete") (lit "Update"))%bool
        with false by reflexivity.
      rewrite bind_lift_inr. cbn [eq_str].
      replace (str_eqb (lit "Delete") (lit "Delete")) with true by reflexivity.
      rewrite Hbucket, bind_lift_inl. cbn [fst snd app].
      fold (error_message w e). rewrite send_then_return. apply Hreport.
    + rewrite (apply_bucket_policy_delete w event ctx h Hrt Hbucket).
      apply Hreport.
  - rewrite (apply_bucket_policy_other w event ctx h Hrt Hc Hu Hd).
    cbn [fst]. congruence.
Qed.

(** ** The steps of the ingestion flow *)

Lemma generate_summary_run (w : World) (text : str) (h : list call) :
  generate_summary w text h =
  if ENABLE_OPENROUTER w
  then (inr (summary_from (fst (call_openrouter w text h))),
        snd (call_openrouter w text h))
  else (inr placeholder_summary, []).
Proof.
  unfold generate_summary. destruct (ENABLE_OPENROUTER w); [|reflexivity].
  rewrite try_except_ret, bind_run. unfold summary_from.
  destruct (call_openrouter w text h) as [[e|resp] d]; cbn [fst snd]; [reflexivity|].
  destruct (first_content resp) as [e|[c|]].
  - rewrite bind_lift_inl. cbn. now rewrite app_nil_r.
  - rewrite bind_lift_inr. cbn. now rewrite app_nil_r.
  - rewrite bind_lift_inr. cbn. now rewrite app_nil_r.
Qed.

Lemma store_in_dynamodb_run (w : World) (key bucket : json) (text summary : str)
    (h : list call) :
  store_in_dynamodb w key bucket text summary h
  = (inr tt, store_calls w key bucket text summary).
Proof.
  unfold store_in_dynamodb, store_calls, serialized_size.
  destruct (ENABLE_DYNAMODB w); [|reflexivity].
  rewrite try_except_ret.
  destruct (os_environ w "TABLE_NAME") as [e|table].
  - rewrite bind_lift_inl. reflexivity.
  - rewrite bind_lift_inr. cbv zeta.
    destruct (_ >? 400000); [reflexivity|].
    unfold perform. cbn [fst snd].
    now destruct (dynamodb_put_item w h table _) as [|[]].
Qed.

Lemma send_sns_notification_run (w : World) (key bucket : json) (summary : str)
    (h : list call) :
  send_sns_notification w key bucket summary h
  = (inr tt, notify_calls w key bucket summary).
Proof.
  unfold send_sns_notification, notify_calls.
  destruct (ENABLE_SNS w); [|reflexivity].
  rewrite try_except_ret. cbv zeta.
  destruct (os_environ w "TOPIC_ARN") as [e|topic].
  - rewrite bind_lift_inl. reflexivity.
  - rewrite bind_lift_inr. unfold perform. cbn [fst snd].
    now destruct (sns_publish w h topic _ _) as [|[]].
Qed.

(** The S3 flow: it raises only before the summary step. *)
Lemma process_s3_event_run (w : World) (event : json) (h : list call) :
  process_s3_event w event h =
  match s3_location event with
  | inl e => (inl e, [])
  | inr (bucket, key) =>
      match s3_get_object w h bucket key with
      | inl e => (inl e, [S3_get_object bucket key])
      | inr text =>
          let g := generate_summary w text (h ++ [S3_get_object bucket key]) in
          let summary := match fst g with inr s => s | inl _ => placeholder_summary end in
          (inr (success_result w),
           S3_get_object bucket key
           :: snd g
              ++ store_calls w key bucket text summary
              ++ notify_calls w key bucket summary)
      end
  end.
Proof.
  unfold process_s3_event, s3_location.
  destruct (validate_s3_event event) as [e|[]]; [apply bind_lift_inl|].
  rewrite bind_lift_inr.
  destruct (s3_field event "bucket" "name") as [e|bucket]; [apply bind_lift_inl|].
  rewrite bind_lift_inr.
  destruct (s3_field event "object" "key") as [e|key]; [apply bind_lift_inl|].
  rewrite bind_lift_inr, bind_run, try_except_reraise. cbn [perform fst snd].
  destruct (s3_get_object w h bucket key) as [e|text]; [reflexivity|].
  cbv zeta. rewrite bind_run.
  rewrite generate_summary_run.
  destruct (ENABLE_OPENROUTER w); cbn [fst snd];
    rewrite bind_run, store_in_dynamodb_run; cbn [fst snd];
    rewrite bind_run, send_sns_notification_run; cbn [fst snd];
    unfold ret; cbn [fst snd]; rewrite ?app_nil_r; reflexivity.
Qed.

(** ** The dispatcher *)

Lemma lambda_handler_run (w : World) (event : json) (ctx : Context) (h : list call) :
  lambda_handler w event ctx h =
  match is_custom_resource event with
  | inl _ => (inr (error_result w), [])
  | inr true =>
      (inr (match fst (apply_bucket_policy w event ctx h) with
            | inr v => v
            | inl _ => error_result w
            end),
       snd (apply_bucket_policy w event ctx h))
  | inr false =>
      (inr (match fst (process_s3_event w event h) with
            | inr v => v
            | inl _ => error_result w
            end),
       snd (process_s3_event w event h))
  end.
Proof.
  unfold lambda_handler. rewrite try_except_ret.
  destruct (is_custom_resource event) as [e|[|]].
  - now rewrite bind_lift_inl.
  - now rewrite bind_lift_inr.
  - now rewrite bind_lift_inr.
Qed.

(** No exception leaves the entry point. *)
Lemma lambda_handler_returns (w : World) (event : json) (ctx : Context)
    (h : list call) :
  exists v, fst (lambda_handler w event ctx h) = inr v.
Proof.
  rewrite lambda_handler_run.
  destruct (is_custom_resource event) as [e|[|]]; cbn [fst]; eauto.
Qed.

(** ** The summarization client *)

Lemma retry_loop_run {A} (remaining : nat) (body : M A) (h : list call) :
  retry_loop remaining body h =
  match fst (body h) with
  | inr a => (inr a, snd (body h))
  | inl e =>
      match remaining with
      | O => (inl (RetryError e), snd (body h))
      | S r =>
          (fst (retry_loop r body (h ++ snd (body h))),
           snd (body h) ++ snd (retry_loop r body (h ++ snd (body h))))
      end
  end.
Proof.
  destruct remaining as [|r]; simpl; destruct (body h) as [[e|a] d];
    cbn [fst snd]; try reflexivity.
  now destruct (retry_loop r body (h ++ d)).
Qed.

(** With [remaining] further attempts allowed, the body runs at most
    [remaining + 1] times: calls of a kind the body makes at most [m] times
    are made at most [(remaining + 1) * m] times. *)
Lemma retry_loop_count {A} (kind : call -> bool) (body : M A) (m : nat) :
  (forall h, (List.length (filter kind (snd (body h))) <= m)%nat) ->
  forall remaining h,
    (List.length (filter kind (snd (retry_loop remaining body h)))
     <= S remaining * m)%nat.
Proof.
  intros Hbody remaining.
  induction remaining as [|r IH]; intros h; rewrite retry_loop_run;
    destruct (fst (body h)) as [e|a]; cbn [snd].
  - specialize (Hbody h). lia.
  - specialize (Hbody h). lia.
  - rewrite filter_app, length_app.
    specialize (Hbody h). specialize (IH (h ++ snd (body h))). lia.
  - specialize (Hbody h). nia.
Qed.

(** The calls of a retried body are calls of the body. *)
Lemma retry_loop_calls {A} (kind : call -> bool) (body : M A) :
  (forall h, forallb kind (snd (body h)) = true) ->
  forall remaining h, forallb kind (snd (retry_loop remaining body h)) = true.
Proof.
  intros Hbody remaining.
  induction remaining as [|r IH]; intros h; rewrite retry_loop_run;
    destruct (fst (body h)) as [e|a]; cbn [snd]; auto.
  rewrite forallb_app, Hbody, IH. reflexivity.
Qed.

Lemma get_api_key_run (w : World) (h : list call) :
  get_api_key w h =
  match os_environ w "OPENROUTER_API_KEY_PARAM" with
  | inl e => (inl e, [])
  | inr name =>
      (match ssm_get_parameter w h name true with
       | inl e => inl e
       | inr response =>
           match getitem response (lit "Parameter") with
           | inl e => inl e
           | inr p => getitem p (lit "Value")
           end
       end,
       [SSM_get_parameter name true])
  end.
Proof.
  unfold get_api_key. rewrite try_except_reraise.
  destruct (os_environ w "OPENROUTER_API_KEY_PARAM") as [e|name].
  - apply bind_lift_inl.
  - rewrite bind_lift_inr, bind_run. cbn [perform fst snd].
    destruct (ssm_get_parameter w h name true) as [e|response]; [reflexivity|].
    cbn [lift fst snd]. now rewrite app_nil_r.
Qed.

(** One attempt asks the parameter store at most once and the model at most
    once, and nothing else. *)
Lemma call_openrouter_attempt_calls (w : World) (text : str) (h : list call) :
  forallb is_summarizer_call (snd (call_openrouter_attempt w text h)) = true /\
  (List.length (filter is_chat (snd (call_openrouter_attempt w text h))) <= 1)%nat.
Proof.
  unfold call_openrouter_attempt, get_openrouter_client.
  rewrite !bind_run, get_api_key_run.
  destruct (os_environ w "OPENROUTER_API_KEY_PARAM") as [e|name];
    cbn [fst snd]; [split; [reflexivity | cbn; lia]|].
  destruct (ssm_get_parameter w h name true) as [e|response];
    cbn [fst snd]; [split; [reflexivity | cbn; lia]|].
  destruct (getitem response (lit "Parameter")) as [e|p];
    cbn [fst snd]; [split; [reflexivity | cbn; lia]|].
  destruct (getitem p (lit "Value")) as [e|key];
    cbn [fst snd]; [split; [reflexivity | cbn; lia]|].
  cbn. split; [reflexivity | lia].
Qed.

Lemma call_openrouter_calls (w : World) (text : str) (h : list call) :
  forallb is_summarizer_call (snd (call_openrouter w text h)) = true.
Proof.
  unfold call_openrouter, retry. apply retry_loop_calls.
  intros h'. apply call_openrouter_attempt_calls.
Qed.

Lemma generate_summary_calls (w : World) (text : str) (h : list call) :
  forallb is_summarizer_call (snd (generate_summary w text h)) = true.
Proof.
  rewrite generate_summary_run. destruct (ENABLE_OPENROUTER w); cbn [snd].
  - apply call_openrouter_calls.
  - reflexivity.
Qed.

(** C8.  [call_openrouter] runs its body up to three times: the first attempt
    that returns ends the call with its value; an attempt that raises, with
    whatever exception, is followed by another one as long as fewer than
    three were made; when the third raises, the call raises ([RetryError]
    around the third exception), and the summary step catches it and keeps
    the placeholder.  The model is never asked a fourth time. *)
Theorem C8_call_openrouter_three_attempts (w : World) (text : str) (h : list call) :
  let attempt := call_openrouter_attempt w text in
  let a1 := attempt h in
  let a2 := attempt (h ++ snd a1) in
  let a3 := attempt (h ++ snd a1 ++ snd a2) in
  call_openrouter w text h =
    match fst a1 with
    | inr resp => (inr resp, snd a1)
    | inl _ =>
        match fst a2 with
        | inr resp => (inr resp, snd a1 ++ snd a2)
        | inl _ =>
            match fst a3 with
            | inr resp => (inr resp, snd a1 ++ snd a2 ++ snd a3)
            | inl e3 => (inl (RetryError e3), snd a1 ++ snd a2 ++ snd a3)
            end
        end
    end
  /\ (List.length (filter is_chat (snd (call_openrouter w text h))) <= 3)%nat
  /\ (forall e, fst (call_openrouter w text h) = inl e ->
      ENABLE_OPENROUTER w = true ->
      generate_summary w text h
      = (inr placeholder_summary, snd (call_openrouter w text h))).
Proof.
  cbv zeta. split; [|split].
  - unfold call_openrouter, retry. cbn [Nat.sub].
    rewrite retry_loop_run.
    destruct (fst (call_openrouter_attempt w text h)); [|reflexivity].
    rewrite retry_loop_run.
    destruct (fst (call_openrouter_attempt w text (h ++ _))); cbn [fst snd];
      [|reflexivity].
    rewrite retry_loop_run, <- app_assoc.
    destruct (fst (call_openrouter_attempt w text (h ++ _ ++ _))); reflexivity.
  - unfold call_openrouter, retry. cbn [Nat.sub].
    pose proof (retry_loop_count is_chat (call_openrouter_attempt w text) (m := 1)
                  (fun h' => proj2 (call_openrouter_attempt_calls w text h')) 2 h).
    lia.
  - intros e He Hon. rewrite generate_summary_run, Hon, He. reflexivity.
Qed.

Lemma C8_witness :
  fst (call_openrouter Example.offline Example.hello [])
  = inl (RetryError (ServiceError (lit "timeout")))
  /\ List.length (filter is_chat (snd (call_openrouter Example.offline Example.hello []))) = 3%nat
  /\ generate_summary Example.offline Example.hello []
     = (inr placeholder_summary, snd (call_openrouter Example.offline Example.hello [])).
Proof.
  destruct (C8_call_openrouter_three_attempts Example.offline Example.hello [])
    as (Hrun & _ & Hcatch).
  split; [|split].
  - rewrite Hrun. reflexivity.
  - rewrite Hrun. reflexivity.
  - apply (Hcatch (RetryError (ServiceError (lit "timeout")))).
    + rewrite Hrun. reflexivity.
    + reflexivity.
Defined.

(** ** The dispatcher's test *)

Lemma is_custom_resource_true (event rt bucket : json) :
  getitem event (lit "RequestType") = inr rt ->
  truthy rt = true ->
  resource_property event "BucketName" = inr bucket ->
  is_custom_resource event = inr true.
Proof.
  intros Hrt Htruthy Hb. unfold is_custom_resource.
  rewrite (getitem_get _ _ Hrt), Htruthy.
  unfold resource_property in Hb.
  destruct (getitem event (lit "ResourceProperties")) as [|props] eqn:Hprops;
    [discriminate|].
  rewrite (getitem_get _ _ Hprops).
  destruct props; simpl in Hb; try discriminate.
  destruct (dict_get (lit "BucketName") d) eqn:Hd; [|discriminate].
  destruct d as [|kv d]; [discriminate|].
  cbn [truthy contains]. now rewrite Hd.
Qed.

Lemma is_custom_resource_false (event rt : json) :
  get event (lit "RequestType") = inr (Some rt) ->
  truthy rt = true ->
  (get event (lit "ResourceProperties") = inr None \/
   exists d, get event (lit "ResourceProperties") = inr (Some (JObj d)) /\
             dict_get (lit "BucketName") d = None) ->
  is_custom_resource event = inr false.
Proof.
  intros Hrt Htruthy Hprops. unfold is_custom_resource. rewrite Hrt, Htruthy.
  destruct Hprops as [Hnone | (d & Hd & Hno)].
  - now rewrite Hnone.
  - rewrite Hd, (get_getitem _ _ Hd).
    destruct d; cbn [truthy contains]; [reflexivity|]. now rewrite Hno.
Qed.

(** ** Claims on the provisioning flow *)

(** C1 (the code does not satisfy it).  A provisioning event whose request
    type is none of Create, Update, Delete, and which carries the callback
    URL and the three identifiers: the handler returns [None] without any
    call, so no callback PUT is attempted, in any world. *)
Theorem C1_unknown_request_type_no_callback (w : World) (ctx : Context)
    (h : list call) :
  is_custom_resource (Example.cfn_event "Foo") = inr true /\
  lambda_handler w (Example.cfn_event "Foo") ctx h = (inr JNull, []).
Proof.
  split; [reflexivity|].
  rewrite lambda_handler_run.
  replace (is_custom_resource (Example.cfn_event "Foo")) with (@inr exn bool true)
    by reflexivity.
  now rewrite (@apply_bucket_policy_other w (Example.cfn_event "Foo") ctx
                 (JStr (lit "Foo")) h).
Qed.




(** ** Claims on the callback reporter *)




(** C10.  Every PUT of the reporter carries a body whose PhysicalResourceId
    is the event's PhysicalResourceId when the event has one and the
    context's log stream name otherwise, and whose Reason is the fixed
    message naming that log stream. *)
Theorem C10_physical_id_and_reason (w : World) (event : json) (ctx : Context)
    (status : str) (data : option json) (h : list call) (c : call) :
  In c (snd (send_cfn_response w event ctx status data h)) ->
  exists url body,
    c = callback_put w url body /\
    getitem body (lit "PhysicalResourceId")
    = inr (match get event (lit "PhysicalResourceId") with
           | inr (Some v) => v
           | _ => JStr (log_stream_name ctx)
           end) /\
    getitem body (lit "Reason")
    = inr (JStr (lit "See CloudWatch Log Stream: " ++ log_stream_name ctx)).
Proof.
  rewrite send_cfn_response_run.
  destruct (response_body _ _ _ _) as [e|body] eqn:Hbody; [intros []|].
  destruct (getitem event (lit "ResponseURL")) as [e|url]; [intros []|].
  intros [<- | []]. exists url, body. split; [reflexivity|].
  apply response_body_inv in Hbody
    as (physical & sid & rid & lid & Hp & _ & _ & _ & ->).
  rewrite Hp. split; reflexivity.
Qed.

Lemma C10_witness :
  exists url body,
    callback_put (Example.world Example.hello) (JStr (lit "http://x"))
      (JObj [(lit "Status", JStr (lit "FAILED"));
             (lit "Reason",
              JStr (lit "See CloudWatch Log Stream: 2026/11/04/[1]abc"));
             (lit "PhysicalResourceId", JStr (lit "2026/11/04/[1]abc"));
             (lit "StackId", JStr (lit "stack-1"));
             (lit "RequestId", JStr (lit "req-1"));
             (lit "LogicalResourceId", JStr (lit "BucketPolicy"));
             (lit "Data", JObj [])])
    = callback_put (Example.world Example.hello) url body /\
    getitem body (lit "PhysicalResourceId") = inr (JStr (lit "2026/11/04/[1]abc")) /\
    getitem body (lit "Reason")
    = inr (JStr (lit "See CloudWatch Log Stream: 2026/11/04/[1]abc")).
Proof.
  apply (@C10_physical_id_and_reason (Example.world Example.hello)
           (Example.cfn_event "Update") Example.context (lit "FAILED") None []).
  left. reflexivity.
Defined.

(** ** Claims on the ingestion flow *)

Lemma generate_summary_value (w : World) (text : str) (h : list call) :
  fst (generate_summary w text h) = inr (flow_summary w text h).
Proof.
  rewrite generate_summary_run. unfold flow_summary.
  now destruct (ENABLE_OPENROUTER w).
Qed.

(** A valid S3 event whose object can be read: the flow runs to its end. *)
Lemma lambda_handler_ingest (w : World) (event : json) (ctx : Context)
    (bucket key : json) (text : str) (h : list call) :
  is_custom_resource event = inr false ->
  s3_location event = inr (bucket, key) ->
  s3_get_object w h bucket key = inr text ->
  let h1 := h ++ [S3_get_object bucket key] in
  let summary := flow_summary w text h1 in
  lambda_handler w event ctx h =
  (inr (success_result w),
   S3_get_object bucket key
   :: snd (generate_summary w text h1)
      ++ store_calls w key bucket text summary
      ++ notify_calls w key bucket summary).
Proof.
  intros Hcustom Hloc Hget h1 summary.
  rewrite lambda_handler_run, Hcustom, process_s3_event_run, Hloc, Hget.
  cbv zeta. fold h1. rewrite generate_summary_value. reflexivity.
Qed.

Lemma filter_none {A} (kind other : A -> bool) (l : list A) :
  forallb kind l = true ->
  (forall x, kind x = true -> other x = false) ->
  filter other l = [].
Proof.
  intros Hall Hdisjoint. induction l as [|x l IH]; [reflexivity|].
  cbn in Hall |- *. apply andb_true_iff in Hall as [Hx Hl].
  rewrite (Hdisjoint x Hx). now apply IH.
Qed.

Lemma store_calls_kind (w : World) (key bucket : json) (text summary : str) :
  forallb is_put_item (store_calls w key bucket text summary) = true.
Proof.
  unfold store_calls. destruct (ENABLE_DYNAMODB w); [|reflexivity].
  destruct (os_environ w "TABLE_NAME"); [reflexivity|].
  now destruct (_ >? 400000).
Qed.

Lemma notify_calls_kind (w : World) (key bucket : json) (summary : str) :
  forallb is_publish (notify_calls w key bucket summary) = true.
Proof.
  unfold notify_calls. destruct (ENABLE_SNS w); [|reflexivity].
  now destruct (os_environ w "TOPIC_ARN").
Qed.

(** C4.  A valid ingestion event whose object is fetched: the summary the
    flow carries on is the content of the first choice of the model's
    response when summarization is enabled, the call returned, and the
    response has a first choice with non-empty content; it is the
    placeholder "Résumé non généré." when summarization is disabled, when
    the call raised (also after its retries), and when the response has no
    choices, no message or no content.  The flow then completes with that
    summary and the entry point returns the success result, not an
    exception. *)
Theorem C4_summary_is_model_output_or_placeholder (w : World) (event : json)
    (ctx : Context) (bucket key : json) (text : str) (h : list call) :
  is_custom_resource event = inr false ->
  s3_location event = inr (bucket, key) ->
  s3_get_object w h bucket key = inr text ->
  let h1 := h ++ [S3_get_object bucket key] in
  let outcome := fst (call_openrouter w text h1) in
  let summary := flow_summary w text h1 in
  fst (generate_summary w text h1) = inr summary /\
  (summary = placeholder_summary \/
   exists resp first rest m,
     ENABLE_OPENROUTER w = true /\ outcome = inr resp /\
     choices resp = Some (first :: rest) /\ message first = Some m /\
     content m = Some summary /\ summary <> []) /\
  (ENABLE_OPENROUTER w = false -> summary = placeholder_summary) /\
  (forall e, outcome = inl e -> summary = placeholder_summary) /\
  (forall resp, outcome = inr resp ->
     choices resp = None \/ choices resp = Some [] ->
     summary = placeholder_summary) /\
  (forall resp first rest m, outcome = inr resp ->
     choices resp = Some (first :: rest) -> message first = Some m ->
     content m = None \/ content m = Some [] ->
     summary = placeholder_summary) /\
  (forall resp first rest, outcome = inr resp ->
     choices resp = Some (first :: rest) -> message first = None ->
     summary = placeholder_summary) /\
  (forall resp first rest m answer,
     ENABLE_OPENROUTER w = true -> outcome = inr resp ->
     choices resp = Some (first :: rest) -> message first = Some m ->
     content m = Some answer -> answer <> [] ->
     summary = answer) /\
  placeholder_summary
  = [82; 233; 115; 117; 109; 233; 32; 110; 111; 110; 32;
     103; 233; 110; 233; 114; 233; 46]%N /\
  lambda_handler w event ctx h =
  (inr (success_result w),
   S3_get_object bucket key
   :: snd (generate_summary w text h1)
      ++ store_calls w key bucket text summary
      ++ notify_calls w key bucket summary).
Proof.
  intros Hcustom Hloc Hget h1 outcome summary.
  split; [apply generate_summary_value|].
  split; [|split; [|split; [|split; [|split; [|split; [|split; [|split]]]]]]].
  - unfold summary, flow_summary.
    destruct (ENABLE_OPENROUTER w); [|now left].
    fold outcome. destruct outcome as [e|resp] eqn:Hout; [now left|].
    unfold summary_from, first_content.
    destruct (choices resp) as [[|first rest]|] eqn:Hch; try (now left).
    destruct (message first) as [m|] eqn:Hm; [|now left].
    destruct (content m) as [[|x s]|] eqn:Hc; try (now left).
    right. exists resp, first, rest, m. repeat split; auto. discriminate.
  - intros Hoff. unfold summary, flow_summary. now rewrite Hoff.
  - intros e He. unfold summary, flow_summary. fold outcome. rewrite He.
    now destruct (ENABLE_OPENROUTER w).
  - intros resp Hresp Hch. unfold summary, flow_summary. fold outcome.
    rewrite Hresp. unfold summary_from, first_content.
    destruct (ENABLE_OPENROUTER w); [|reflexivity].
    now destruct Hch as [-> | ->].
  - intros resp first rest m Hresp Hch Hm Hc. unfold summary, flow_summary.
    fold outcome. rewrite Hresp. unfold summary_from, first_content.
    destruct (ENABLE_OPENROUTER w); [|reflexivity].
    rewrite Hch, Hm. now destruct Hc as [-> | ->].
  - intros resp first rest Hresp Hch Hm. unfold summary, flow_summary.
    fold outcome. rewrite Hresp. unfold summary_from, first_content.
    destruct (ENABLE_OPENROUTER w); [|reflexivity].
    now rewrite Hch, Hm.
  - intros resp first rest m answer Hon Hresp Hch Hm Hc Hne.
    unfold summary, flow_summary. fold outcome.
    rewrite Hon, Hresp. unfold summary_from, first_content.
    rewrite Hch, Hm, Hc. destruct answer; [now destruct Hne | reflexivity].
  - reflexivity.
  - apply (lambda_handler_ingest w event ctx h Hcustom Hloc Hget).
Qed.

Lemma C4_witness :
  flow_summary (Example.world Example.hello) Example.hello
    [S3_get_object (JStr (lit "b1")) (JStr (lit "k1.txt"))]
  = lit "Un texte." /\
  fst (lambda_handler (Example.world Example.hello) Example.s3_event
         Example.context [])
  = inr (success_result (Example.world Example.hello)).
Proof.
  destruct (@C4_summary_is_model_output_or_placeholder (Example.world Example.hello)
              Example.s3_event Example.context (JStr (lit "b1")) (JStr (lit "k1.txt"))
              Example.hello [] eq_refl eq_refl eq_refl)
    as (_ & _ & _ & _ & _ & _ & _ & Hanswer & _ & Hrun).
  split.
  - apply (Hanswer Example.reply
             {| message := Some {| content := Some (lit "Un texte.") |} |} []
             {| content := Some (lit "Un texte.") |} (lit "Un texte."));
      try reflexivity.
    discriminate.
  - now rewrite Hrun.
Defined.

(** C5.  Persistence enabled and the record (file name, bucket, text,
    summary) serialized to more than 400,000 bytes: the invocation makes no
    write to the table, the flow goes on to the notify step, whose calls end
    the invocation, and returns the success result; with notification
    enabled and the topic configured, the notification is published. *)
Theorem C5_oversized_record_not_written (w : World) (event : json)
    (ctx : Context) (bucket key : json) (text : str) (h : list call) :
  is_custom_resource event = inr false ->
  s3_location event = inr (bucket, key) ->
  s3_get_object w h bucket key = inr text ->
  ENABLE_DYNAMODB w = true ->
  let h1 := h ++ [S3_get_object bucket key] in
  let summary := flow_summary w text h1 in
  serialized_size w (summary_item key bucket text summary) > 400000 ->
  let run := lambda_handler w event ctx h in
  filter is_put_item (snd run) = [] /\
  run = (inr (success_result w),
         S3_get_object bucket key
         :: snd (generate_summary w text h1)
            ++ snd (send_sns_notification w key bucket summary
                      (h1 ++ snd (generate_summary w text h1)))) /\
  (ENABLE_SNS w = true ->
   forall topic, os_environ w "TOPIC_ARN" = inr topic ->
   filter is_publish (snd run)
   = [SNS_publish topic (notification_subject w key)
        (notification_message w key bucket summary)]).
Proof.
  intros Hcustom Hloc Hget Hon h1 summary Hsize run.
  assert (Hstore : store_calls w key bucket text summary = []).
  { unfold store_calls. rewrite Hon.
    destruct (os_environ w "TABLE_NAME"); [reflexivity|].
    apply Z.gtb_gt in Hsize. fold summary. now rewrite Hsize. }
  assert (Hrun : run = (inr (success_result w),
            S3_get_object bucket key
            :: snd (generate_summary w text h1) ++ notify_calls w key bucket summary)).
  { unfold run.
    rewrite (lambda_handler_ingest w event ctx h Hcustom Hloc Hget).
    cbv zeta. fold h1 summary. now rewrite Hstore. }
  assert (Hsum : forall kind, (forall c, is_summarizer_call c = true -> kind c = false) ->
            filter kind (snd (generate_summary w text h1)) = []).
  { intros kind Hkind.
    apply (filter_none is_summarizer_call kind _
             (generate_summary_calls w text h1) Hkind). }
  split; [|split].
  - rewrite Hrun. cbn [snd filter is_put_item]. rewrite filter_app.
    rewrite Hsum by (intros []; simpl; congruence).
    apply (filter_none is_publish is_put_item _ (notify_calls_kind w key bucket summary)).
    intros []; simpl; congruence.
  - rewrite Hrun, send_sns_notification_run. reflexivity.
  - intros Hsns topic Htopic. rewrite Hrun.
    cbn [snd filter is_publish]. rewrite filter_app.
    rewrite Hsum by (intros []; simpl; congruence).
    unfold notify_calls. rewrite Hsns, Htopic. reflexivity.
Qed.

Lemma C5_witness :
  filter is_put_item
    (snd (lambda_handler (Example.world Example.long_text) Example.s3_event
            Example.context [])) = [] /\
  filter is_publish
    (snd (lambda_handler (Example.world Example.long_text) Example.s3_event
            Example.context []))
  = [SNS_publish (lit "arn:aws:sns:topic")
       (notification_subject (Example.world Example.long_text) (JStr (lit "k1.txt")))
       (notification_message (Example.world Example.long_text) (JStr (lit "k1.txt"))
          (JStr (lit "b1")) (lit "Un texte."))].
Proof.
  assert (Hsize :
    serialized_size (Example.world Example.long_text)
      (summary_item (JStr (lit "k1.txt")) (JStr (lit "b1")) Example.long_text
         (flow_summary (Example.world Example.long_text) Example.long_text
            ([] ++ [S3_get_object (JStr (lit "b1")) (JStr (lit "k1.txt"))])))
    > 400000) by (vm_compute; reflexivity).
  destruct (@C5_oversized_record_not_written (Example.world Example.long_text)
              Example.s3_event Example.context (JStr (lit "b1")) (JStr (lit "k1.txt"))
              Example.long_text [] eq_refl eq_refl eq_refl eq_refl Hsize)
    as (Hnone & _ & Hpublish).
  split.
  - exact Hnone.
  - exact (Hpublish eq_refl (lit "arn:aws:sns:topic") eq_refl).
Defined.

Lemma forallb_weaken {A} (kind wider : A -> bool) (l : list A) :
  forallb kind l = true ->
  (forall x, kind x = true -> wider x = true) ->
  forallb wider l = true.
Proof.
  intros Hall Himp. induction l as [|x l IH]; [reflexivity|].
  cbn in Hall |- *. apply andb_true_iff in Hall as [Hx Hl].
  now rewrite (Himp x Hx), IH.
Qed.

(** The S3 flow calls the object store, the summarization client, the table
    and the topic, and nothing else. *)
Lemma process_s3_event_calls (w : World) (event : json) (h : list call) :
  forallb is_ingestion_call (snd (process_s3_event w event h)) = true.
Proof.
  rewrite process_s3_event_run.
  destruct (s3_location event) as [e|[bucket key]]; [reflexivity|].
  destruct (s3_get_object w h bucket key) as [e|text]; [reflexivity|].
  cbv zeta. cbn [snd forallb is_ingestion_call andb].
  rewrite !forallb_app.
  rewrite (forallb_weaken is_summarizer_call is_ingestion_call _
             (generate_summary_calls w text _)) by (intros []; simpl; congruence).
  rewrite (forallb_weaken is_put_item is_ingestion_call _
             (store_calls_kind w key bucket text _)) by (intros []; simpl; congruence).
  rewrite (forallb_weaken is_publish is_ingestion_call _
             (notify_calls_kind w key bucket _)) by (intros []; simpl; congruence).
  reflexivity.
Qed.

Lemma s3_location_missing_records (event : json) :
  get event (lit "Records") = inr None ->
  s3_location event = inl (ValueError (lit "Invalid S3 event structure")).
Proof.
  intros H. unfold s3_location, validate_s3_event. now rewrite H.
Qed.

Lemma s3_location_missing_s3 (event rs r0 : json) :
  getitem event (lit "Records") = inr rs ->
  getitem0 rs = inr r0 ->
  get r0 (lit "s3") = inr None ->
  s3_location event = inl (ValueError (lit "Invalid S3 event structure")).
Proof.
  intros Hrs Hr0 Hs3. unfold s3_location, validate_s3_event.
  rewrite (getitem_get _ _ Hrs), Hrs, Hr0, Hs3.
  now destruct (truthy rs).
Qed.

Lemma success_is_not_error (w : World) : success_result w <> error_result w.
Proof. unfold success_result, error_result, status_result. congruence. Qed.

(** The result of an event that is not routed to the provisioning flow. *)
Lemma lambda_handler_s3_result (w : World) (event : json) (ctx : Context)
    (h : list call) :
  is_custom_resource event <> inr true ->
  fst (lambda_handler w event ctx h) =
  inr (match is_custom_resource event, s3_location event with
       | inr _, inr (bucket, key) =>
           match s3_get_object w h bucket key with
           | inr _ => success_result w
           | inl _ => error_result w
           end
       | _, _ => error_result w
       end).
Proof.
  intros Hnot. rewrite lambda_handler_run.
  destruct (is_custom_resource event) as [e|[|]]; [reflexivity|congruence|].
  rewrite process_s3_event_run.
  destruct (s3_location event) as [e|[bucket key]]; [reflexivity|].
  now destruct (s3_get_object w h bucket key).
Qed.

(** C7.  The entry point always returns a value, never an exception.  For an
    event that is not routed to the provisioning flow the value is the
    success result (status 200, body the JSON text of "Success") when the
    event passes the validation and its object is fetched, and the error
    result (status 500, body the JSON text of "Lambda error") otherwise: in
    particular when "Records" is missing, when the first record has no "s3"
    entry, and when the fetch raises.  For an event routed to the
    provisioning flow the value is [None], or the error result when the
    flow raised. *)
Theorem C7_return_value (w : World) (event : json) (ctx : Context) (h : list call) :
  let run := lambda_handler w event ctx h in
  (exists v, fst run = inr v) /\
  success_result w = JObj [(lit "statusCode", JInt 200);
                           (lit "body", JStr (lit (json_dumps w (JStr (lit "Success")))))] /\
  error_result w = JObj [(lit "statusCode", JInt 500);
                         (lit "body", JStr (lit (json_dumps w (JStr (lit "Lambda error")))))] /\
  (is_custom_resource event = inr true ->
   fst run = inr JNull \/ fst run = inr (error_result w)) /\
  (is_custom_resource event <> inr true ->
   (forall bucket key text,
      is_custom_resource event = inr false ->
      s3_location event = inr (bucket, key) ->
      s3_get_object w h bucket key = inr text ->
      fst run = inr (success_result w)) /\
   (forall e, is_custom_resource event = inl e -> run = (inr (error_result w), [])) /\
   (forall e, s3_location event = inl e -> run = (inr (error_result w), [])) /\
   (get event (lit "Records") = inr None -> run = (inr (error_result w), [])) /\
   (forall rs r0,
      getitem event (lit "Records") = inr rs ->
      getitem0 rs = inr r0 ->
      get r0 (lit "s3") = inr None ->
      run = (inr (error_result w), [])) /\
   (forall bucket key e,
      is_custom_resource event = inr false ->
      s3_location event = inr (bucket, key) ->
      s3_get_object w h bucket key = inl e ->
      run = (inr (error_result w), [S3_get_object bucket key]))).
Proof.
  intros run.
  split; [apply lambda_handler_returns|].
  split; [reflexivity|]. split; [reflexivity|].
  split.
  { intros Hcustom. unfold run. rewrite lambda_handler_run, Hcustom. cbn [fst].
    destruct (fst (apply_bucket_policy w event ctx h)) as [e|v] eqn:Hv;
      [now right|].
    left. now rewrite (apply_bucket_policy_value w event ctx h Hv). }
  intros Hnot.
  assert (Hinvalid : forall e, s3_location event = inl e ->
            run = (inr (error_result w), [])).
  { intros e He. unfold run. rewrite lambda_handler_run.
    destruct (is_custom_resource event) as [e'|[|]]; [reflexivity|congruence|].
    now rewrite process_s3_event_run, He. }
  split; [|split; [|split; [|split; [|split]]]].
  - intros bucket key text Hcustom Hloc Hget. unfold run.
    now rewrite (@lambda_handler_s3_result w event ctx h Hnot), Hcustom, Hloc, Hget.
  - intros e He. unfold run. now rewrite lambda_handler_run, He.
  - exact Hinvalid.
  - intros Hrec. apply (Hinvalid _ (s3_location_missing_records event Hrec)).
  - intros rs r0 Hrs Hr0 Hs3.
    apply (Hinvalid _ (s3_location_missing_s3 event Hrs Hr0 Hs3)).
  - intros bucket key e Hcustom Hloc Hget. unfold run.
    now rewrite lambda_handler_run, Hcustom, process_s3_event_run, Hloc, Hget.
Qed.

Lemma C7_witness :
  lambda_handler (Example.world Example.hello) (JObj []) Example.context []
  = (inr (error_result (Example.world Example.hello)), []) /\
  fst (lambda_handler (Example.world Example.hello) Example.s3_event Example.context [])
  = inr (success_result (Example.world Example.hello)).
Proof.
  split.
  - destruct (C7_return_value (Example.world Example.hello) (JObj [])
                Example.context []) as (_ & _ & _ & _ & Hs3).
    destruct Hs3 as (_ & _ & _ & Hmissing & _); [discriminate|].
    apply Hmissing. reflexivity.
  - destruct (C7_return_value (Example.world Example.hello) Example.s3_event
                Example.context []) as (_ & _ & _ & _ & Hs3).
    destruct Hs3 as (Hok & _); [discriminate|].
    apply (Hok (JStr (lit "b1")) (JStr (lit "k1.txt")) Example.hello);
      reflexivity.
Defined.

(** ** Claims on the dispatcher *)

(** C9, as the code has it.  An event with a non-empty request type whose
    resource properties are absent, or are a map without BucketName, is not
    routed to the provisioning flow: the handler runs the S3 flow on it, no
    callback PUT is attempted, and the result is the error result when the
    event fails the S3 validation or its object cannot be fetched, and the
    success result when the event also names a readable S3 object. *)
Theorem C9_request_type_without_bucket_name (w : World) (event : json)
    (ctx : Context) (rt : json) (h : list call) :
  get event (lit "RequestType") = inr (Some rt) ->
  truthy rt = true ->
  (get event (lit "ResourceProperties") = inr None \/
   exists d, get event (lit "ResourceProperties") = inr (Some (JObj d)) /\
             dict_get (lit "BucketName") d = None) ->
  let run := lambda_handler w event ctx h in
  is_custom_resource event = inr false /\
  snd run = snd (process_s3_event w event h) /\
  filter is_put (snd run) = [] /\
  fst run = inr (match s3_location event with
                 | inl _ => error_result w
                 | inr (bucket, key) =>
                     match s3_get_object w h bucket key with
                     | inl _ => error_result w
                     | inr _ => success_result w
                     end
                 end) /\
  (get event (lit "Records") = inr None -> run = (inr (error_result w), [])).
Proof.
  intros Hrt Htruthy Hprops run.
  pose proof (is_custom_resource_false event Hrt Htruthy Hprops) as Hcustom.
  assert (Hrun : run =
    (inr (match fst (process_s3_event w event h) with
          | inr v => v
          | inl _ => error_result w
          end), snd (process_s3_event w event h)))
    by (unfold run; now rewrite lambda_handler_run, Hcustom).
  split; [exact Hcustom|]. split; [now rewrite Hrun|]. split; [|split].
  - rewrite Hrun. cbn [snd].
    apply (filter_none is_ingestion_call is_put _ (process_s3_event_calls w event h)).
    intros []; simpl; congruence.
  - rewrite Hrun, process_s3_event_run. cbn [fst].
    destruct (s3_location event) as [e|[bucket key]]; [reflexivity|].
    now destruct (s3_get_object w h bucket key).
  - intros Hrec. rewrite Hrun, process_s3_event_run.
    now rewrite (s3_location_missing_records event Hrec).
Qed.

Lemma C9_witness :
  lambda_handler (Example.world Example.hello)
    (JObj [(lit "RequestType", JStr (lit "Create"))]) Example.context []
  = (inr (error_result (Example.world Example.hello)), []).
Proof.
  apply (@C9_request_type_without_bucket_name (Example.world Example.hello)
           (JObj [(lit "RequestType", JStr (lit "Create"))]) Example.context
           (JStr (lit "Create")) []).
  - reflexivity.
  - reflexivity.
  - left. reflexivity.
  - reflexivity.
Defined.

(** C9 as stated fails: an event with a request type, no resource
    properties, and a valid record is processed as an S3 event and answered
    with the success result, not the error result. *)
Lemma C9_counterexample :
  get Example.mixed_event (lit "RequestType") = inr (Some (JStr (lit "Create"))) /\
  get Example.mixed_event (lit "ResourceProperties") = inr None /\
  fst (lambda_handler (Example.world Example.hello) Example.mixed_event
         Example.context [])
  = inr (success_result (Example.world Example.hello)) /\
  success_result (Example.world Example.hello)
  <> error_result (Example.world Example.hello).
Proof.
  split; [reflexivity|]. split; [reflexivity|]. split; [reflexivity|].
  apply success_is_not_error.
Qed.

(** ** The feature flags *)

Lemma literal_neq (a b : string) :
  str_eqb (lit a) (lit b) = false -> lit a <> lit b.
Proof.
  intros Hneq Heq. apply str_eqb_eq in Heq. congruence.
Qed.

Section Frame.

Variable w : World.
Variable flag : string.
Variable env : str -> option str.
Hypothesis Henv : differs_only_at flag env w.

Lemma feature_flag_frame (name : string) :
  str_eqb (lit name) (lit flag) = false ->
  feature_flag (with_environ env w) name = feature_flag w name.
Proof.
  intros Hneq. unfold feature_flag. cbn [environ with_environ].
  now rewrite (Henv (literal_neq _ _ Hneq)).
Qed.

Lemma os_environ_frame (name : string) :
  str_eqb (lit name) (lit flag) = false ->
  os_environ (with_environ env w) name = os_environ w name.
Proof.
  intros Hneq. unfold os_environ. cbn [environ with_environ].
  now rewrite (Henv (literal_neq _ _ Hneq)).
Qed.

Hypothesis Hflag1 : str_eqb (lit "ENABLE_OPENROUTER") (lit flag) = false.
Hypothesis Hflag2 : str_eqb (lit "OPENROUTER_API_KEY_PARAM") (lit flag) = false.

Lemma call_openrouter_attempt_frame (text : str) (h : list call) :
  call_openrouter_attempt (with_environ env w) text h = call_openrouter_attempt w text h.
Proof.
  unfold call_openrouter_attempt, get_openrouter_client.
  rewrite !bind_run, !get_api_key_run, (os_environ_frame _ Hflag2).
  reflexivity.
Qed.

Lemma retry_loop_frame {A} (body1 body2 : M A) :
  (forall h, body1 h = body2 h) ->
  forall remaining h, retry_loop remaining body1 h = retry_loop remaining body2 h.
Proof.
  intros Hbody remaining.
  induction remaining as [|r IH]; intros h; simpl; rewrite Hbody; [reflexivity|].
  destruct (body2 h) as [[e|a] d]; [|reflexivity]. now rewrite IH.
Qed.

Lemma generate_summary_frame (text : str) (h : list call) :
  generate_summary (with_environ env w) text h = generate_summary w text h.
Proof.
  rewrite !generate_summary_run.
  unfold ENABLE_OPENROUTER. rewrite (feature_flag_frame _ Hflag1).
  unfold call_openrouter, retry.
  rewrite (retry_loop_frame _ _ (call_openrouter_attempt_frame text)).
  reflexivity.
Qed.

(** The provisioning flow reads no environment variable. *)
Lemma apply_bucket_policy_frame (event : json) (ctx : Context) (h : list call) :
  apply_bucket_policy (with_environ env w) event ctx h = apply_bucket_policy w event ctx h.
Proof. reflexivity. Qed.

Lemma store_calls_frame (key bucket : json) (text summary : str) :
  str_eqb (lit "ENABLE_DYNAMODB") (lit flag) = false ->
  str_eqb (lit "TABLE_NAME") (lit flag) = false ->
  store_calls (with_environ env w) key bucket text summary = store_calls w key bucket text summary.
Proof.
  intros H1 H2. unfold store_calls, ENABLE_DYNAMODB.
  now rewrite (feature_flag_frame _ H1), (os_environ_frame _ H2).
Qed.

Lemma notify_calls_frame (key bucket : json) (summary : str) :
  str_eqb (lit "ENABLE_SNS") (lit flag) = false ->
  str_eqb (lit "TOPIC_ARN") (lit flag) = false ->
  notify_calls (with_environ env w) key bucket summary = notify_calls w key bucket summary.
Proof.
  intros H1 H2. unfold notify_calls, ENABLE_SNS.
  now rewrite (feature_flag_frame _ H1), (os_environ_frame _ H2).
Qed.

(** The handler in the two worlds: the same result, and the same calls among
    those [visible], when steps 3 and 4 make the same visible calls. *)
Lemma lambda_handler_frame (visible : call -> bool) (event : json)
    (ctx : Context) (h : list call) :
  (forall key bucket text summary,
     filter visible (store_calls (with_environ env w) key bucket text summary)
     = filter visible (store_calls w key bucket text summary)) ->
  (forall key bucket summary,
     filter visible (notify_calls (with_environ env w) key bucket summary)
     = filter visible (notify_calls w key bucket summary)) ->
  fst (lambda_handler (with_environ env w) event ctx h) = fst (lambda_handler w event ctx h) /\
  filter visible (snd (lambda_handler (with_environ env w) event ctx h))
  = filter visible (snd (lambda_handler w event ctx h)).
Proof.
  intros Hstore Hnotify. rewrite !lambda_handler_run.
  destruct (is_custom_resource event) as [e|[|]].
  - split; reflexivity.
  - rewrite apply_bucket_policy_frame. split; reflexivity.
  - rewrite !process_s3_event_run.
    destruct (s3_location event) as [e|[bucket key]]; [split; reflexivity|].
    change (s3_get_object (with_environ env w) h bucket key) with (s3_get_object w h bucket key).
    destruct (s3_get_object w h bucket key) as [e|text]; [split; reflexivity|].
    cbv zeta. rewrite generate_summary_frame.
    split; [reflexivity|]. cbn [snd filter].
    rewrite !filter_app, Hstore, Hnotify. reflexivity.
Qed.

End Frame.

Lemma store_calls_hidden (w1 w2 : World) (key bucket : json) (text summary : str) :
  filter not_put_item (store_calls w1 key bucket text summary)
  = filter not_put_item (store_calls w2 key bucket text summary).
Proof.
  rewrite !(filter_none is_put_item not_put_item _ (store_calls_kind _ _ _ _ _));
    try reflexivity; intros c Hc; unfold not_put_item; now rewrite Hc.
Qed.

Lemma notify_calls_hidden (w1 w2 : World) (key bucket : json) (summary : str) :
  filter not_publish (notify_calls w1 key bucket summary)
  = filter not_publish (notify_calls w2 key bucket summary).
Proof.
  rewrite !(filter_none is_publish not_publish _ (notify_calls_kind _ _ _ _));
    try reflexivity; intros c Hc; unfold not_publish; now rewrite Hc.
Qed.

(** The calls of an invocation of a kind that neither the provisioning flow
    nor the summarizer nor the fetch makes come from steps 3 and 4. *)
Lemma lambda_handler_filter (w : World) (kind : call -> bool) (event : json)
    (ctx : Context) (h : list call) :
  (forall c, is_provisioning_call c = true -> kind c = false) ->
  (forall c, is_summarizer_call c = true -> kind c = false) ->
  (forall bucket key, kind (S3_get_object bucket key) = false) ->
  (forall key bucket text summary,
     filter kind (store_calls w key bucket text summary) = []) ->
  (forall key bucket summary,
     filter kind (notify_calls w key bucket summary) = []) ->
  filter kind (snd (lambda_handler w event ctx h)) = [].
Proof.
  intros Hprov Hsum Hget Hstore Hnotify. rewrite lambda_handler_run.
  destruct (is_custom_resource event) as [e|[|]]; cbn [snd].
  - reflexivity.
  - apply (filter_none is_provisioning_call kind _
             (apply_bucket_policy_calls w event ctx h) Hprov).
  - rewrite process_s3_event_run.
    destruct (s3_location event) as [e|[bucket key]]; [reflexivity|].
    destruct (s3_get_object w h bucket key) as [e|text]; cbn [snd filter];
      rewrite Hget; [reflexivity|].
    rewrite !filter_app, Hstore, Hnotify.
    now rewrite (filter_none is_summarizer_call kind _
                   (generate_summary_calls w text _) Hsum).
Qed.

(** C6.  With the persistence flag disabled an invocation writes nothing to
    the table, and with the notification flag disabled it publishes nothing.
    Changing the value of one of the two flags, everything else the same,
    leaves the handler's result and all its other calls as they were. *)
Theorem C6_flags_gate_their_step_only (w : World) (event : json) (ctx : Context)
    (h : list call) :
  (ENABLE_DYNAMODB w = false ->
   filter is_put_item (snd (lambda_handler w event ctx h)) = []) /\
  (ENABLE_SNS w = false ->
   filter is_publish (snd (lambda_handler w event ctx h)) = []) /\
  (forall env, differs_only_at "ENABLE_DYNAMODB" env w ->
     fst (lambda_handler (with_environ env w) event ctx h)
     = fst (lambda_handler w event ctx h) /\
     filter not_put_item (snd (lambda_handler (with_environ env w) event ctx h))
     = filter not_put_item (snd (lambda_handler w event ctx h))) /\
  (forall env, differs_only_at "ENABLE_SNS" env w ->
     fst (lambda_handler (with_environ env w) event ctx h)
     = fst (lambda_handler w event ctx h) /\
     filter not_publish (snd (lambda_handler (with_environ env w) event ctx h))
     = filter not_publish (snd (lambda_handler w event ctx h))).
Proof.
  split; [|split; [|split]].
  - intros Hoff. apply lambda_handler_filter.
    + intros []; simpl; congruence.
    + intros []; simpl; congruence.
    + reflexivity.
    + intros. unfold store_calls. now rewrite Hoff.
    + intros. apply (filter_none is_publish is_put_item _ (notify_calls_kind _ _ _ _)).
      intros []; simpl; congruence.
  - intros Hoff. apply lambda_handler_filter.
    + intros []; simpl; congruence.
    + intros []; simpl; congruence.
    + reflexivity.
    + intros. apply (filter_none is_put_item is_publish _ (store_calls_kind _ _ _ _ _)).
      intros []; simpl; congruence.
    + intros. unfold notify_calls. now rewrite Hoff.
  - intros env Henv.
    apply (lambda_handler_frame Henv eq_refl eq_refl not_put_item).
    + intros. apply store_calls_hidden.
    + intros. now rewrite (notify_calls_frame Henv _ _ _ eq_refl eq_refl).
  - intros env Henv.
    apply (lambda_handler_frame Henv eq_refl eq_refl not_publish).
    + intros. now rewrite (store_calls_frame Henv _ _ _ _ eq_refl eq_refl).
    + intros. apply notify_calls_hidden.
Qed.

Lemma C6_witness :
  filter is_put_item
    (snd (lambda_handler (with_environ Example.env_no_store (Example.world Example.hello))
            Example.s3_event Example.context [])) = [] /\
  filter is_publish
    (snd (lambda_handler (with_environ Example.env_no_notify (Example.world Example.hello))
            Example.s3_event Example.context [])) = [] /\
  filter not_put_item
    (snd (lambda_handler (with_environ Example.env_no_store (Example.world Example.hello))
            Example.s3_event Example.context []))
  = filter not_put_item
      (snd (lambda_handler (Example.world Example.hello) Example.s3_event
              Example.context [])) /\
  filter not_publish
    (snd (lambda_handler (with_environ Example.env_no_notify (Example.world Example.hello))
            Example.s3_event Example.context []))
  = filter not_publish
      (snd (lambda_handler (Example.world Example.hello) Example.s3_event
              Example.context [])).
Proof.
  split; [|split; [|split]].
  - apply (C6_flags_gate_their_step_only
             (with_environ Example.env_no_store (Example.world Example.hello))
             Example.s3_event Example.context []).
    reflexivity.
  - apply (C6_flags_gate_their_step_only
             (with_environ Example.env_no_notify (Example.world Example.hello))
             Example.s3_event Example.context []).
    reflexivity.
  - apply (C6_flags_gate_their_step_only (Example.world Example.hello)
             Example.s3_event Example.context []).
    intros name Hname. unfold Example.env_no_store.
    destruct (str_eqb name (lit "ENABLE_DYNAMODB")) eqn:Heq; [|reflexivity].
    apply str_eqb_eq in Heq. contradiction.
  - apply (C6_flags_gate_their_step_only (Example.world Example.hello)
             Example.s3_event Example.context []).
    intros name Hname. unfold Example.env_no_notify.
    destruct (str_eqb name (lit "ENABLE_SNS")) eqn:Heq; [|reflexivity].
    apply str_eqb_eq in Heq. contradiction.
Defined.

(** * Further properties *)

(** ** The provisioning flow, case by case *)

Lemma apply_bucket_policy_run (w : World) (event : json) (ctx : Context)
    (h : list call) :
  apply_bucket_policy w event ctx h = provisioning_outcome w event ctx h.
Proof.
  unfold provisioning_outcome.
  destruct (getitem event (lit "RequestType")) as [e|rt] eqn:Hrt.
  { unfold apply_bucket_policy.
    rewrite try_except_run, Hrt, bind_lift_inl. cbn [fst snd app].
    fold (error_message w e). now rewrite send_then_return. }
  destruct (eq_str rt (lit "Create") || eq_str rt (lit "Update"))%bool eqn:Hcu.
  { now rewrite (apply_bucket_policy_create_update w event ctx h Hrt Hcu). }
  apply orb_false_iff in Hcu as [Hc Hu].
  destruct (eq_str rt (lit "Delete")) eqn:Hd.
  - apply eq_str_true in Hd. subst rt.
    destruct (resource_property event "BucketName") as [e|bucket] eqn:Hbucket.
    + unfold apply_bucket_policy.
      rewrite try_except_run, Hrt, !bind_lift_inr. cbn [eq_str].
      replace (str_eqb (lit "Delete") (lit "Create")
               || str_eqb (lit "Delete") (lit "Update"))%bool
        with false by reflexivity.
      rewrite bind_lift_inr. cbn [eq_str].
      replace (str_eqb (lit "Delete") (lit "Delete")) with true by reflexivity.
      rewrite Hbucket, bind_lift_inl. cbn [fst snd app].
      fold (error_message w e). now rewrite send_then_return.
    + now rewrite (apply_bucket_policy_delete w event ctx h Hrt Hbucket).
  - now rewrite (apply_bucket_policy_other w event ctx h Hrt Hc Hu Hd).
Qed.

Lemma handled_is_truthy (rt : json) :
  handled_request_type rt = true -> truthy rt = true.
Proof.
  unfold handled_request_type. intros H.
  apply orb_true_iff in H as [H|H]; [apply orb_true_iff in H as [H|H]|];
    apply eq_str_true in H; now subst.
Qed.


(** A provisioning event's run is the closed form, with the handler's
    conversion of an exception into the error result. *)
Lemma lambda_handler_provisioning (w : World) (event : json) (ctx : Context)
    (h : list call) :
  is_custom_resource event = inr true ->
  lambda_handler w event ctx h =
  (inr (match fst (provisioning_outcome w event ctx h) with
        | inr v => v
        | inl _ => error_result w
        end),
   snd (provisioning_outcome w event ctx h)).
Proof.
  intros Hcustom.
  now rewrite lambda_handler_run, Hcustom, apply_bucket_policy_run.
Qed.







(** ** Every invocation *)


Lemma report_put_inv (w : World) (event : json) (ctx : Context) (status : str)
    (data : json) (c : call) :
  In c (snd (report w event ctx status data)) ->
  exists url body,
    c = callback_put w url body /\
    getitem event (lit "ResponseURL") = inr url /\
    response_body event ctx status data = inr body.
Proof.
  unfold report. destruct (response_body _ _ _ _) as [e|body]; [intros []|].
  cbn [snd]. destruct (getitem event (lit "ResponseURL")) as [e|url]; [intros []|].
  intros [<- | []]. now exists url, body.
Qed.

(** The calls of the provisioning flow: policy calls, then at most the
    calls of one report. *)
Lemma provisioning_outcome_shape (w : World) (event : json) (ctx : Context)
    (h : list call) :
  exists made status data,
    (status = lit "SUCCESS" \/ status = lit "FAILED") /\
    filter is_put made = [] /\
    (snd (provisioning_outcome w event ctx h) = made \/
     snd (provisioning_outcome w event ctx h)
     = made ++ snd (report w event ctx status data)).
Proof.
  unfold provisioning_outcome.
  destruct (getitem event (lit "RequestType")) as [e|rt].
  { exists [], (lit "FAILED"), (error_message w e). auto. }
  destruct (eq_str rt (lit "Create") || eq_str rt (lit "Update"))%bool.
  { destruct (resource_property event "BucketName") as [e|bucket].
    { exists [], (lit "FAILED"), (error_message w e). auto. }
    destruct (resource_property event "PolicyDocument") as [e|policy].
    { exists [], (lit "FAILED"), (error_message w e). auto. }
    destruct (s3_put_bucket_policy w h bucket (json_dumps w policy)) as [e|u].
    - exists [S3_put_bucket_policy bucket (json_dumps w policy)],
        (lit "FAILED"), (error_message w e). auto.
    - exists [S3_put_bucket_policy bucket (json_dumps w policy)],
        (lit "SUCCESS"), (applied_message w bucket). auto. }
  destruct (eq_str rt (lit "Delete")).
  - destruct (resource_property event "BucketName") as [e|bucket].
    + exists [], (lit "FAILED"), (error_message w e). auto.
    + exists [S3_delete_bucket_policy bucket], (lit "SUCCESS"),
        (removed_message w bucket). auto.
  - exists [], (lit "SUCCESS"), JNull. auto.
Qed.

(** The callback PUTs of an invocation are those of the provisioning flow. *)
Lemma lambda_handler_puts (w : World) (event : json) (ctx : Context)
    (h : list call) :
  filter is_put (snd (lambda_handler w event ctx h)) = [] \/
  exists status data,
    (status = lit "SUCCESS" \/ status = lit "FAILED") /\
    filter is_put (snd (lambda_handler w event ctx h))
    = snd (report w event ctx status data).
Proof.
  rewrite lambda_handler_run.
  destruct (is_custom_resource event) as [e|[|]]; cbn [snd].
  - now left.
  - rewrite apply_bucket_policy_run.
    destruct (provisioning_outcome_shape w event ctx h)
      as (made & status & data & Hstatus & Hmade & [-> | ->]).
    + now left.
    + right. exists status, data. split; [exact Hstatus|].
      now rewrite filter_app, Hmade, report_puts.
  - left. apply (filter_none is_ingestion_call is_put _ (process_s3_event_calls w event h)).
    intros []; simpl; congruence.
Qed.



(** X5.  A Create, Update or Delete request that lacks one of StackId,
    RequestId, LogicalResourceId: no callback PUT is attempted, neither for
    the outcome nor for the failure to report it, and the handler returns
    the error result (status 500). *)
Theorem X5_missing_identifier_no_callback (w : World) (event : json)
    (ctx : Context) (rt bucket : json) (e : exn) (h : list call) :
  getitem event (lit "RequestType") = inr rt ->
  handled_request_type rt = true ->
  resource_property event "BucketName" = inr bucket ->
  getitem event (lit "StackId") = inl e \/
  getitem event (lit "RequestId") = inl e \/
  getitem event (lit "LogicalResourceId") = inl e ->
  fst (lambda_handler w event ctx h) = inr (error_result w) /\
  filter is_put (snd (lambda_handler w event ctx h)) = [].
Proof.
  intros Hrt Hhandled Hb Hmissing.
  pose proof (is_custom_resource_true event Hrt (handled_is_truthy rt Hhandled) Hb)
    as Hcustom.
  assert (Hreport : forall status data, exists e',
            report w event ctx status data = (inl e', [])).
  { intros status data. unfold report, response_body.
    destruct event; try discriminate. cbn [get].
    destruct (getitem (JObj d) (lit "StackId")) as [e1|sid]; [now exists e1|].
    destruct (getitem (JObj d) (lit "RequestId")) as [e2|rid]; [now exists e2|].
    destruct (getitem (JObj d) (lit "LogicalResourceId")) as [e3|lid];
      [now exists e3|].
    destruct Hmissing as [H | [H | H]]; discriminate. }
  rewrite (lambda_handler_provisioning w event ctx h Hcustom).
  unfold provisioning_outcome. rewrite Hrt.
  unfold handled_request_type in Hhandled.
  destruct (eq_str rt (lit "Create") || eq_str rt (lit "Update"))%bool.
  - rewrite Hb.
    destruct (resource_property event "PolicyDocument") as [e1|policy].
    { destruct (Hreport (lit "FAILED") (error_message w e1)) as [e' ->]. now split. }
    destruct (s3_put_bucket_policy w h bucket (json_dumps w policy)) as [e1|u].
    { destruct (Hreport (lit "FAILED") (error_message w e1)) as [e' ->]. now split. }
    destruct (Hreport (lit "SUCCESS") (applied_message w bucket)) as [e' ->].
    now split.
  - cbn [orb] in Hhandled. rewrite Hhandled, Hb.
    destruct (Hreport (lit "SUCCESS") (removed_message w bucket)) as [e' ->].
    now split.
Qed.

Lemma X5_witness :
  fst (lambda_handler (Example.world Example.hello)
         (More.request "Create" More.properties More.identifiers_without_stack)
         Example.context [])
  = inr (error_result (Example.world Example.hello)) /\
  filter is_put
    (snd (lambda_handler (Example.world Example.hello)
            (More.request "Create" More.properties More.identifiers_without_stack)
            Example.context [])) = [].
Proof.
  apply (@X5_missing_identifier_no_callback (Example.world Example.hello)
           (More.request "Create" More.properties More.identifiers_without_stack)
           Example.context (JStr (lit "Create")) (JStr (lit "b1"))
           (KeyError (JStr (lit "StackId"))) []).
  - reflexivity.
  - reflexivity.
  - reflexivity.
  - left. reflexivity.
Defined.





(** X8.  One invocation runs one flow: when the dispatcher's test holds, all
    calls are bucket-policy calls and callback PUTs; when it fails, all
    calls are object-store, parameter-store, model, table and topic calls;
    when the test itself raises, there is no call.  So no invocation both
    touches a bucket policy and ingests a document. *)
Theorem X8_one_flow_per_invocation (w : World) (event : json) (ctx : Context)
    (h : list call) :
  let calls := snd (lambda_handler w event ctx h) in
  match is_custom_resource event with
  | inr true => forallb is_provisioning_call calls = true
  | inr false => forallb is_ingestion_call calls = true
  | inl _ => calls = []
  end /\
  (forallb is_provisioning_call calls = true \/
   forallb is_ingestion_call calls = true).
Proof.
  cbv zeta. rewrite lambda_handler_run.
  destruct (is_custom_resource event) as [e|[|]]; cbn [snd].
  - split; [reflexivity | now left].
  - pose proof (apply_bucket_policy_calls w event ctx h). auto.
  - pose proof (process_s3_event_calls w event h). auto.
Qed.

(** X9.  An event that is not a JSON object (a list, a string, a number,
    null): the handler returns the error result (status 500) without calling
    any service. *)
Theorem X9_event_not_an_object (w : World) (event : json) (ctx : Context)
    (h : list call) :
  (forall d, event <> JObj d) ->
  lambda_handler w event ctx h = (inr (error_result w), []).
Proof.
  intros Hnot. rewrite lambda_handler_run.
  destruct event; try reflexivity. now destruct (Hnot d).
Qed.

Lemma X9_witness :
  lambda_handler (Example.world Example.hello) (JArr [Example.s3_event])
    Example.context []
  = (inr (error_result (Example.world Example.hello)), []).
Proof.
  apply X9_event_not_an_object. intros d. discriminate.
Defined.

(** X10.  An event with a non-empty request type whose resource properties
    are a non-zero number or [true]: the membership test of the dispatcher
    raises, so the handler returns the error result without calling any
    service, even when the event also carries valid S3 records. *)
Theorem X10_scalar_properties_fail_dispatch (w : World) (event : json)
    (ctx : Context) (rt props : json) (h : list call) :
  getitem event (lit "RequestType") = inr rt ->
  truthy rt = true ->
  getitem event (lit "ResourceProperties") = inr props ->
  is_scalar props = true ->
  truthy props = true ->
  is_custom_resource event = inl TypeError /\
  lambda_handler w event ctx h = (inr (error_result w), []).
Proof.
  intros Hrt Hrt_truthy Hprops Hscalar Htruthy.
  assert (Hcustom : is_custom_resource event = inl TypeError).
  { unfold is_custom_resource.
    rewrite (getitem_get _ _ Hrt), Hrt_truthy.
    rewrite (getitem_get _ _ Hprops), Htruthy, Hprops.
    destruct props; try discriminate; reflexivity. }
  split; [exact Hcustom|]. now rewrite lambda_handler_run, Hcustom.
Qed.

Lemma X10_witness :
  lambda_handler (Example.world Example.hello)
    (JObj [(lit "RequestType", JStr (lit "Create"));
           (lit "ResourceProperties", JInt 5);
           (lit "Records", JArr [More.record "b1" "k1.txt"])])
    Example.context []
  = (inr (error_result (Example.world Example.hello)), []).
Proof.
  apply (@X10_scalar_properties_fail_dispatch (Example.world Example.hello)
           (JObj [(lit "RequestType", JStr (lit "Create"));
                  (lit "ResourceProperties", JInt 5);
                  (lit "Records", JArr [More.record "b1" "k1.txt"])])
           Example.context (JStr (lit "Create")) (JInt 5) []); reflexivity.
Defined.

Lemma length_encode_utf8 (s : string) :
  List.length (encode_utf8 s) = String.length s.
Proof.
  unfold encode_utf8, list_byte_of_string. rewrite length_map.
  induction s as [|a s IH]; simpl; [reflexivity | now rewrite IH].
Qed.

(** X11.  Every callback PUT of an invocation is sent with exactly two
    headers: Content-Type application/json, and Content-Length equal to the
    number of bytes of the body it sends, in decimal. *)
Theorem X11_content_length_is_body_length (w : World) (event : json)
    (ctx : Context) (h : list call) (url : json) (body : list Byte.byte)
    (headers : list (str * str)) :
  In (HTTP_PUT url body headers) (snd (lambda_handler w event ctx h)) ->
  headers = [(lit "Content-Type", lit "application/json");
             (lit "Content-Length", str_of_len (Z.of_nat (List.length body)))].
Proof.
  intros Hin.
  assert (Hput : In (HTTP_PUT url body headers)
                    (filter is_put (snd (lambda_handler w event ctx h))))
    by (apply filter_In; now split).
  destruct (lambda_handler_puts w event ctx h)
    as [Hnone | (status & data & _ & Hputs)].
  - rewrite Hnone in Hput. destruct Hput.
  - rewrite Hputs in Hput.
    destruct (report_put_inv w event ctx status data _ Hput)
      as (url' & b & Heq & _ & _).
    unfold callback_put, put_headers in Heq. inversion Heq; subst.
    unfold len. now rewrite length_encode_utf8.
Qed.

Lemma X11_witness :
  put_headers (json_dumps (Example.world Example.hello)
                 (JObj [(lit "Status", JStr (lit "SUCCESS"));
                        (lit "Reason",
                         JStr (lit "See CloudWatch Log Stream: 2026/11/04/[1]abc"));
                        (lit "PhysicalResourceId", JStr (lit "2026/11/04/[1]abc"));
                        (lit "StackId", JStr (lit "stack-1"));
                        (lit "RequestId", JStr (lit "req-1"));
                        (lit "LogicalResourceId", JStr (lit "BucketPolicy"));
                        (lit "Data",
                         removed_message (Example.world Example.hello)
                           (JStr (lit "b1")))]))
  = [(lit "Content-Type", lit "application/json");
     (lit "Content-Length", lit "266")].
Proof.
  refine (eq_trans
            (@X11_content_length_is_body_length (Example.world Example.hello)
               (Example.cfn_event "Delete") Example.context []
               (JStr (lit "http://x")) (encode_utf8 _) _ _) _).
  - right. left. reflexivity.
  - reflexivity.
Defined.

(** ** The ingestion flow, step by step *)

Lemma filter_all {A} (kind : A -> bool) (l : list A) :
  forallb kind l = true -> filter kind l = l.
Proof.
  induction l as [|x l IH]; [reflexivity|].
  cbn [forallb filter]. intros H. apply andb_true_iff in H as [Hx Hl].
  now rewrite Hx, IH.
Qed.

(** X12.  Persistence enabled, the table configured, and the record
    serialized to at most 400,000 bytes (the limit itself included): the
    invocation makes exactly one write, of the item with the file name, the
    bucket, the text and the summary, to the configured table; and whatever
    the table answers, also an exception, the handler returns the success
    result. *)
Theorem X12_record_within_limit_written_once (w : World) (event : json)
    (ctx : Context) (bucket key : json) (text table : str) (h : list call) :
  is_custom_resource event = inr false ->
  s3_location event = inr (bucket, key) ->
  s3_get_object w h bucket key = inr text ->
  ENABLE_DYNAMODB w = true ->
  environ w (lit "TABLE_NAME") = Some table ->
  let summary := flow_summary w text (h ++ [S3_get_object bucket key]) in
  let item := JObj [(lit "NomFichier", key); (lit "Bucket", bucket);
                    (lit "Texte", JStr text); (key_resume, JStr summary)] in
  serialized_size w item <= 400000 ->
  filter is_put_item (snd (lambda_handler w event ctx h))
  = [DynamoDB_put_item table item] /\
  fst (lambda_handler w event ctx h) = inr (success_result w).
Proof.
  intros Hcustom Hloc Hget Hon Htable summary item Hsize.
  rewrite (lambda_handler_ingest w event ctx h Hcustom Hloc Hget).
  cbv zeta. fold summary. split; [|reflexivity].
  cbn [snd filter is_put_item]. rewrite !filter_app.
  rewrite (filter_none is_summarizer_call is_put_item _
             (generate_summary_calls w text _)) by (intros []; simpl; congruence).
  rewrite (filter_none is_publish is_put_item _
             (notify_calls_kind w key bucket summary)) by (intros []; simpl; congruence).
  unfold store_calls, os_environ. rewrite Hon, Htable.
  fold item in Hsize |- *.
  replace (serialized_size w (summary_item key bucket text summary) >? 400000)
    with false by (symmetry; rewrite Z.gtb_ltb; apply Z.ltb_ge; exact Hsize).
  reflexivity.
Qed.

Lemma X12_witness :
  serialized_size (More.unreliable More.text_at_limit)
    (summary_item (JStr (lit "k1.txt")) (JStr (lit "b1")) More.text_at_limit
       (lit "Un texte.")) = 400000 /\
  filter is_put_item
    (snd (lambda_handler (More.unreliable More.text_at_limit) Example.s3_event
            Example.context []))
  = [DynamoDB_put_item (lit "summaries")
       (summary_item (JStr (lit "k1.txt")) (JStr (lit "b1")) More.text_at_limit
          (lit "Un texte."))] /\
  fst (lambda_handler (More.unreliable More.text_at_limit) Example.s3_event
         Example.context [])
  = inr (success_result (More.unreliable More.text_at_limit)).
Proof.
  assert (Hsize :
    serialized_size (More.unreliable More.text_at_limit)
      (summary_item (JStr (lit "k1.txt")) (JStr (lit "b1")) More.text_at_limit
         (lit "Un texte.")) = 400000) by (vm_compute; reflexivity).
  split; [exact Hsize|].
  apply (@X12_record_within_limit_written_once (More.unreliable More.text_at_limit)
           Example.s3_event Example.context (JStr (lit "b1")) (JStr (lit "k1.txt"))
           More.text_at_limit (lit "summaries") []).
  - reflexivity.
  - reflexivity.
  - reflexivity.
  - reflexivity.
  - reflexivity.
  - vm_compute. discriminate.
Defined.

(** X13.  A valid ingestion event whose object is fetched, with the table
    name or the topic not configured in the environment: the step that needs
    it is skipped without a call (no write without TABLE_NAME, no publish
    without TOPIC_ARN), the other steps run, and the handler returns the
    success result. *)
Theorem X13_unconfigured_step_is_skipped (w : World) (event : json)
    (ctx : Context) (bucket key : json) (text : str) (h : list call) :
  is_custom_resource event = inr false ->
  s3_location event = inr (bucket, key) ->
  s3_get_object w h bucket key = inr text ->
  let summary := flow_summary w text (h ++ [S3_get_object bucket key]) in
  let run := lambda_handler w event ctx h in
  fst run = inr (success_result w) /\
  (environ w (lit "TABLE_NAME") = None ->
   filter is_put_item (snd run) = [] /\
   filter is_publish (snd run) = notify_calls w key bucket summary) /\
  (environ w (lit "TOPIC_ARN") = None ->
   filter is_publish (snd run) = [] /\
   filter is_put_item (snd run) = store_calls w key bucket text summary).
Proof.
  intros Hcustom Hloc Hget summary run. unfold run.
  rewrite (lambda_handler_ingest w event ctx h Hcustom Hloc Hget).
  cbv zeta. fold summary. split; [reflexivity|].
  assert (Hitem : filter is_put_item
                    (S3_get_object bucket key
                     :: snd (generate_summary w text (h ++ [S3_get_object bucket key]))
                        ++ store_calls w key bucket text summary
                        ++ notify_calls w key bucket summary)
                  = store_calls w key bucket text summary).
  { cbn [filter is_put_item]. rewrite !filter_app.
    rewrite (filter_none is_summarizer_call is_put_item _
               (generate_summary_calls w text _)) by (intros []; simpl; congruence).
    rewrite (filter_none is_publish is_put_item _
               (notify_calls_kind w key bucket summary)) by (intros []; simpl; congruence).
    rewrite app_nil_r. cbn [app].
    apply filter_all, store_calls_kind. }
  assert (Hpub : filter is_publish
                   (S3_get_object bucket key
                    :: snd (generate_summary w text (h ++ [S3_get_object bucket key]))
                       ++ store_calls w key bucket text summary
                       ++ notify_calls w key bucket summary)
                 = notify_calls w key bucket summary).
  { cbn [filter is_publish]. rewrite !filter_app.
    rewrite (filter_none is_summarizer_call is_publish _
               (generate_summary_calls w text _)) by (intros []; simpl; congruence).
    rewrite (filter_none is_put_item is_publish _
               (store_calls_kind w key bucket text summary)) by (intros []; simpl; congruence).
    cbn [app].
    apply filter_all, notify_calls_kind. }
  cbn [snd]. rewrite Hitem, Hpub. split.
  - intros Hnone. split; [|reflexivity].
    unfold store_calls, os_environ. rewrite Hnone. now destruct (ENABLE_DYNAMODB w).
  - intros Hnone. split; [|reflexivity].
    unfold notify_calls, os_environ. rewrite Hnone. now destruct (ENABLE_SNS w).
Qed.

Lemma X13_witness :
  lambda_handler (with_environ More.empty_env (Example.world Example.hello))
    Example.s3_event Example.context []
  = (inr (success_result (Example.world Example.hello)),
     [S3_get_object (JStr (lit "b1")) (JStr (lit "k1.txt"))]) /\
  filter is_put_item
    (snd (lambda_handler (with_environ More.empty_env (Example.world Example.hello))
            Example.s3_event Example.context [])) = [].
Proof.
  split; [reflexivity|].
  destruct (@X13_unconfigured_step_is_skipped
              (with_environ More.empty_env (Example.world Example.hello))
              Example.s3_event Example.context (JStr (lit "b1")) (JStr (lit "k1.txt"))
              Example.hello [] eq_refl eq_refl eq_refl) as (_ & Htable & _).
  apply Htable. reflexivity.
Defined.



(** ** The summarization client, continued *)

Lemma retry_loop_compare {A} (kind1 kind2 : call -> bool) (body : M A) :
  (forall h, (List.length (filter kind1 (snd (body h)))
              <= List.length (filter kind2 (snd (body h))))%nat) ->
  forall remaining h,
    (List.length (filter kind1 (snd (retry_loop remaining body h)))
     <= List.length (filter kind2 (snd (retry_loop remaining body h))))%nat.
Proof.
  intros Hbody remaining.
  induction remaining as [|r IH]; intros h; rewrite retry_loop_run;
    destruct (fst (body h)) as [e|a]; cbn [snd]; try apply Hbody.
  rewrite !filter_app, !length_app.
  specialize (Hbody h). specialize (IH (h ++ snd (body h))). lia.
Qed.

Lemma retry_loop_all {A} (P : call -> Prop) (body : M A) :
  (forall h, Forall P (snd (body h))) ->
  forall remaining h, Forall P (snd (retry_loop remaining body h)).
Proof.
  intros Hbody remaining.
  induction remaining as [|r IH]; intros h; rewrite retry_loop_run;
    destruct (fst (body h)) as [e|a]; cbn [snd]; try apply Hbody.
  apply Forall_app. split; [apply Hbody | apply IH].
Qed.

(** One attempt, case by case. *)
Lemma call_openrouter_attempt_run (w : World) (text : str) (h : list call) :
  call_openrouter_attempt w text h =
  match fst (get_api_key w h) with
  | inl e => (inl e, snd (get_api_key w h))
  | inr key =>
      let client := {| base_url := lit "https://openrouter.ai/api/v1";
                       api_key := key |} in
      (chat_completions_create w (h ++ snd (get_api_key w h)) client
         openrouter_model (chat_messages text),
       snd (get_api_key w h)
       ++ [Chat_completions_create client openrouter_model (chat_messages text)])
  end.
Proof.
  unfold call_openrouter_attempt, get_openrouter_client.
  rewrite !bind_run.
  destruct (fst (get_api_key w h)) as [e|key]; cbn [fst snd]; [reflexivity|].
  unfold ret, perform, chat_messages. cbn [fst snd].
  now rewrite !app_nil_r.
Qed.

Lemma call_openrouter_attempt_counts (w : World) (text : str) (h : list call) :
  (List.length (filter is_chat (snd (call_openrouter_attempt w text h)))
   <= List.length (filter is_get_parameter (snd (call_openrouter_attempt w text h))))%nat
  /\ (List.length (filter is_get_parameter (snd (call_openrouter_attempt w text h)))
      <= 1)%nat.
Proof.
  rewrite call_openrouter_attempt_run, get_api_key_run.
  destruct (os_environ w "OPENROUTER_API_KEY_PARAM") as [e|name];
    cbn [fst snd]; [cbn; lia|].
  destruct (ssm_get_parameter w h name true) as [e|response]; [cbn; lia|].
  destruct (getitem response (lit "Parameter")) as [e|p]; [cbn; lia|].
  destruct (getitem p (lit "Value")) as [e|key]; cbn; lia.
Qed.

(** X15.  In every invocation the API key is fetched anew for each attempt
    and before the model is called: the model is asked at most as often as
    the parameter store, and the parameter store at most three times. *)
Theorem X15_key_fetched_for_each_attempt (w : World) (event : json)
    (ctx : Context) (h : list call) :
  let calls := snd (lambda_handler w event ctx h) in
  (List.length (filter is_chat calls)
   <= List.length (filter is_get_parameter calls))%nat /\
  (List.length (filter is_get_parameter calls) <= 3)%nat.
Proof.
  cbv zeta.
  assert (Hclient : forall text h',
    (List.length (filter is_chat (snd (generate_summary w text h')))
     <= List.length (filter is_get_parameter (snd (generate_summary w text h'))))%nat /\
    (List.length (filter is_get_parameter (snd (generate_summary w text h'))) <= 3)%nat).
  { intros text h'. rewrite generate_summary_run.
    destruct (ENABLE_OPENROUTER w); cbn [snd]; [|cbn; lia].
    unfold call_openrouter, retry. cbn [Nat.sub]. split.
    - apply retry_loop_compare. intros h2.
      apply (call_openrouter_attempt_counts w text h2).
    - pose proof (retry_loop_count is_get_parameter (call_openrouter_attempt w text)
                    (m := 1)
                    (fun h2 => proj2 (call_openrouter_attempt_counts w text h2)) 2 h').
      lia. }
  rewrite lambda_handler_run.
  destruct (is_custom_resource event) as [e|[|]]; cbn [snd].
  - cbn; lia.
  - rewrite (filter_none is_provisioning_call is_chat _
               (apply_bucket_policy_calls w event ctx h))
      by (intros []; simpl; congruence).
    rewrite (filter_none is_provisioning_call is_get_parameter _
               (apply_bucket_policy_calls w event ctx h))
      by (intros []; simpl; congruence).
    cbn; lia.
  - rewrite process_s3_event_run.
    destruct (s3_location event) as [e|[bucket key]]; [cbn; lia|].
    destruct (s3_get_object w h bucket key) as [e|text]; [cbn; lia|].
    cbv zeta. cbn [snd filter is_chat is_get_parameter].
    rewrite !(filter_app _ (snd _)), !length_app.
    rewrite !(filter_app _ (store_calls _ _ _ _ _)).
    rewrite !(filter_none is_put_item _ _ (store_calls_kind w key bucket text _))
      by (intros []; simpl; congruence).
    rewrite !(filter_none is_publish _ _ (notify_calls_kind w key bucket _))
      by (intros []; simpl; congruence).
    cbn [app List.length].
    destruct (Hclient text (h ++ [S3_get_object bucket key])). lia.
Qed.

(** X16.  Without OPENROUTER_API_KEY_PARAM in the environment (and
    summarization enabled), each of the three attempts raises [KeyError]
    before any call: the client raises after no call at all, the summary is
    the placeholder, and a valid event is still processed to the success
    result without any parameter-store or model call. *)
Theorem X16_missing_key_parameter_name (w : World) (event : json) (ctx : Context)
    (bucket key : json) (text : str) (h : list call) :
  environ w (lit "OPENROUTER_API_KEY_PARAM") = None ->
  is_custom_resource event = inr false ->
  s3_location event = inr (bucket, key) ->
  s3_get_object w h bucket key = inr text ->
  (forall h', call_openrouter w text h'
              = (inl (RetryError (KeyError (JStr (lit "OPENROUTER_API_KEY_PARAM")))), [])) /\
  flow_summary w text (h ++ [S3_get_object bucket key]) = placeholder_summary /\
  lambda_handler w event ctx h =
  (inr (success_result w),
   S3_get_object bucket key
   :: store_calls w key bucket text placeholder_summary
      ++ notify_calls w key bucket placeholder_summary).
Proof.
  intros Hnone Hcustom Hloc Hget.
  assert (Hattempt : forall h', call_openrouter_attempt w text h'
            = (inl (KeyError (JStr (lit "OPENROUTER_API_KEY_PARAM"))), [])).
  { intros h'. rewrite call_openrouter_attempt_run, get_api_key_run.
    unfold os_environ. now rewrite Hnone. }
  assert (Hcall : forall h', call_openrouter w text h'
            = (inl (RetryError (KeyError (JStr (lit "OPENROUTER_API_KEY_PARAM")))), [])).
  { intros h'. unfold call_openrouter, retry. cbn [Nat.sub].
    rewrite retry_loop_run, Hattempt. cbn [fst snd].
    rewrite retry_loop_run, Hattempt. cbn [fst snd].
    rewrite retry_loop_run, Hattempt. reflexivity. }
  assert (Hsummary : forall h', flow_summary w text h' = placeholder_summary).
  { intros h'. unfold flow_summary. rewrite Hcall.
    now destruct (ENABLE_OPENROUTER w). }
  split; [exact Hcall|]. split; [apply Hsummary|].
  rewrite (lambda_handler_ingest w event ctx h Hcustom Hloc Hget).
  cbv zeta. rewrite Hsummary, generate_summary_run, Hcall.
  now destruct (ENABLE_OPENROUTER w).
Qed.

Lemma X16_witness :
  lambda_handler (with_environ More.empty_env (Example.world Example.hello))
    Example.s3_event Example.context []
  = (inr (success_result (Example.world Example.hello)),
     [S3_get_object (JStr (lit "b1")) (JStr (lit "k1.txt"))]).
Proof.
  destruct (@X16_missing_key_parameter_name
              (with_environ More.empty_env (Example.world Example.hello))
              Example.s3_event Example.context (JStr (lit "b1")) (JStr (lit "k1.txt"))
              Example.hello [] eq_refl eq_refl eq_refl eq_refl) as (_ & _ & Hrun).
  exact Hrun.
Defined.

(** X17.  Every request to the model is made with the client for
    https://openrouter.ai/api/v1, the model
    mistralai/devstral-small-2505:free, and a single user message: the fixed
    French instruction followed by the first 1000 characters of the text,
    at most 1050 characters in all.  What follows the first 1000 characters
    never reaches the model. *)
Theorem X17_model_request_shape (w : World) (text : str) (h : list call) (c : call) :
  In c (snd (call_openrouter w text h)) ->
  is_chat c = true ->
  (exists key,
     c = Chat_completions_create
           {| base_url := lit "https://openrouter.ai/api/v1"; api_key := key |}
           (lit "mistralai/devstral-small-2505:free")
           (JArr [JObj [(lit "role", JStr (lit "user"));
                        (lit "content",
                         JStr (openrouter_prompt ++ firstn 1000 text))]])) /\
  (List.length (openrouter_prompt ++ firstn 1000 text) <= 1050)%nat.
Proof.
  intros Hin Hchat. split.
  - assert (Hall : Forall (fun c => is_chat c = true ->
              exists key,
                c = Chat_completions_create
                      {| base_url := lit "https://openrouter.ai/api/v1";
                         api_key := key |}
                      openrouter_model (chat_messages text))
              (snd (call_openrouter w text h))).
    { unfold call_openrouter, retry. apply retry_loop_all. intros h'.
      rewrite call_openrouter_attempt_run, get_api_key_run.
      destruct (os_environ w "OPENROUTER_API_KEY_PARAM") as [e|name];
        cbn [fst snd]; [constructor|].
      assert (Hssm : forall rest,
                Forall (fun c => is_chat c = true -> exists key,
                          c = Chat_completions_create
                                {| base_url := lit "https://openrouter.ai/api/v1";
                                   api_key := key |}
                                openrouter_model (chat_messages text)) rest ->
                Forall (fun c => is_chat c = true -> exists key,
                          c = Chat_completions_create
                                {| base_url := lit "https://openrouter.ai/api/v1";
                                   api_key := key |}
                                openrouter_model (chat_messages text))
                  (SSM_get_parameter name true :: rest)).
      { intros rest Hrest. constructor; [discriminate | exact Hrest]. }
      destruct (ssm_get_parameter w h' name true) as [e|response];
        [apply Hssm; constructor|].
      destruct (getitem response (lit "Parameter")) as [e|p];
        [apply Hssm; constructor|].
      destruct (getitem p (lit "Value")) as [e|key]; [apply Hssm; constructor|].
      cbn [app]. apply Hssm. constructor; [|constructor].
      intros _. now exists key. }
    rewrite Forall_forall in Hall. exact (Hall c Hin Hchat).
  - rewrite length_app. pose proof (firstn_le_length 1000 text) as Hle.
    change (List.length openrouter_prompt) with 50%nat. lia.
Qed.

Lemma X17_witness :
  exists key,
    Chat_completions_create
      {| base_url := lit "https://openrouter.ai/api/v1";
         api_key := JStr (lit "sk-1") |}
      openrouter_model (chat_messages Example.long_text)
    = Chat_completions_create
        {| base_url := lit "https://openrouter.ai/api/v1"; api_key := key |}
        (lit "mistralai/devstral-small-2505:free")
        (JArr [JObj [(lit "role", JStr (lit "user"));
                     (lit "content",
                      JStr (openrouter_prompt ++ firstn 1000 Example.long_text))]]).
Proof.
  apply (@X17_model_request_shape (Example.world Example.long_text)
           Example.long_text []).
  - right. left. reflexivity.
  - reflexivity.
Defined.

(** ** The event and the configuration *)

(** X18.  Only the first record of an S3 event is processed: two events that
    are not provisioning events and whose record lists start with the same
    record are handled identically, whatever follows it. *)
Theorem X18_only_first_record_is_processed (w : World) (event1 event2 : json)
    (ctx : Context) (first : json) (rest1 rest2 : list json) (h : list call) :
  is_custom_resource event1 = inr false ->
  is_custom_resource event2 = inr false ->
  getitem event1 (lit "Records") = inr (JArr (first :: rest1)) ->
  getitem event2 (lit "Records") = inr (JArr (first :: rest2)) ->
  lambda_handler w event1 ctx h = lambda_handler w event2 ctx h.
Proof.
  intros Hc1 Hc2 Hr1 Hr2.
  assert (Hloc : s3_location event1 = s3_location event2).
  { unfold s3_location, validate_s3_event, s3_field.
    rewrite (getitem_get _ _ Hr1), (getitem_get _ _ Hr2), Hr1, Hr2.
    reflexivity. }
  rewrite !lambda_handler_run, Hc1, Hc2, !process_s3_event_run, Hloc.
  reflexivity.
Qed.

Lemma X18_witness :
  lambda_handler (Example.world Example.hello) More.two_records Example.context []
  = lambda_handler (Example.world Example.hello) Example.s3_event Example.context [].
Proof.
  apply (@X18_only_first_record_is_processed (Example.world Example.hello)
           More.two_records Example.s3_event Example.context
           (More.record "b1" "k1.txt") [More.record "b2" "k2.txt"] []);
    reflexivity.
Defined.

Lemma lower_char_letter (c t : N) :
  (97 <= t <= 122)%N ->
  lower_char c = t <-> (c = t \/ c = t - 32)%N.
Proof.
  intros Ht. unfold lower_char.
  destruct (N.leb_spec 65 c), (N.leb_spec c 90); cbn [andb]; lia.
Qed.

(** X19.  A feature flag is enabled exactly when its variable is unset or
    spells "true" in any mix of upper and lower case; every other value,
    such as "1", "yes" or the empty string, disables the step. *)
Theorem X19_flag_enabled_iff_spells_true (w : World) (name : string) :
  feature_flag w name = true <->
  match environ w (lit name) with
  | None => True
  | Some v => spells_true v
  end.
Proof.
  unfold feature_flag.
  destruct (environ w (lit name)) as [v|]; [|split; [trivial | reflexivity]].
  rewrite str_eqb_eq. unfold lower, spells_true.
  change (lit "true") with [116; 114; 117; 101]%N.
  destruct v as [|a [|b [|c [|d [|x v]]]]]; cbn [List.map];
    try (split; [discriminate | contradiction]).
  split.
  - intros H. injection H as Ha Hb Hc Hd.
    apply lower_char_letter in Ha; [|lia].
    apply lower_char_letter in Hb; [|lia].
    apply lower_char_letter in Hc; [|lia].
    apply lower_char_letter in Hd; [|lia].
    repeat split; lia.
  - intros (Ha & Hb & Hc & Hd).
    assert (Ha' : lower_char a = 116%N) by (apply lower_char_letter; lia).
    assert (Hb' : lower_char b = 114%N) by (apply lower_char_letter; lia).
    assert (Hc' : lower_char c = 117%N) by (apply lower_char_letter; lia).
    assert (Hd' : lower_char d = 101%N) by (apply lower_char_letter; lia).
    now rewrite Ha', Hb', Hc', Hd'.
Qed.

Lemma X19_witness :
  ENABLE_SNS (with_environ More.env_spellings (Example.world Example.hello)) = true /\
  ENABLE_DYNAMODB (with_environ More.env_spellings (Example.world Example.hello))
  <> true.
Proof.
  split.
  - apply (X19_flag_enabled_iff_spells_true
             (with_environ More.env_spellings (Example.world Example.hello))
             "ENABLE_SNS").
    cbn. repeat split; auto.
  - intros Hon.
    apply (X19_flag_enabled_iff_spells_true
             (with_environ More.env_spellings (Example.world Example.hello))
             "ENABLE_DYNAMODB") in Hon.
    exact Hon.
Defined.

(** X20.  With summarization disabled no invocation calls the parameter
    store or the model, and a valid event whose object is fetched is stored
    and notified with the placeholder summary. *)
Theorem X20_summarization_disabled (w : World) (event : json) (ctx : Context)
    (h : list call) :
  ENABLE_OPENROUTER w = false ->
  filter is_summarizer_call (snd (lambda_handler w event ctx h)) = [] /\
  (forall bucket key text,
     is_custom_resource event = inr false ->
     s3_location event = inr (bucket, key) ->
     s3_get_object w h bucket key = inr text ->
     lambda_handler w event ctx h =
     (inr (success_result w),
      S3_get_object bucket key
      :: store_calls w key bucket text placeholder_summary
         ++ notify_calls w key bucket placeholder_summary)).
Proof.
  intros Hoff. split.
  - rewrite lambda_handler_run.
    destruct (is_custom_resource event) as [e|[|]]; cbn [snd]; [reflexivity| |].
    + apply (filter_none is_provisioning_call is_summarizer_call _
               (apply_bucket_policy_calls w event ctx h)).
      intros []; simpl; congruence.
    + rewrite process_s3_event_run.
      destruct (s3_location event) as [e|[bucket key]]; [reflexivity|].
      destruct (s3_get_object w h bucket key) as [e|text]; [reflexivity|].
      cbv zeta. rewrite generate_summary_run, Hoff.
      cbn [fst snd app filter is_summarizer_call]. rewrite filter_app.
      rewrite (filter_none is_put_item is_summarizer_call _
                 (store_calls_kind w key bucket text _))
        by (intros []; simpl; congruence).
      apply (filter_none is_publish is_summarizer_call _
               (notify_calls_kind w key bucket _)).
      intros []; simpl; congruence.
  - intros bucket key text Hcustom Hloc Hget.
    rewrite (lambda_handler_ingest w event ctx h Hcustom Hloc Hget).
    cbv zeta. unfold flow_summary. rewrite generate_summary_run, Hoff.
    reflexivity.
Qed.

Lemma X20_witness :
  lambda_handler (with_environ More.env_no_summary (Example.world Example.hello))
    Example.s3_event Example.context []
  = (inr (success_result (Example.world Example.hello)),
     [S3_get_object (JStr (lit "b1")) (JStr (lit "k1.txt"));
      DynamoDB_put_item (lit "summaries")
        (JObj [(lit "NomFichier", JStr (lit "k1.txt")); (lit "Bucket", JStr (lit "b1"));
               (lit "Texte", JStr (lit "hello world"));
               (key_resume, JStr placeholder_summary)]);
      SNS_publish (lit "arn:aws:sns:topic")
        (notification_subject (Example.world Example.hello) (JStr (lit "k1.txt")))
        (notification_message (Example.world Example.hello) (JStr (lit "k1.txt"))
           (JStr (lit "b1")) placeholder_summary)]).
Proof.
  destruct (@X20_summarization_disabled
              (with_environ More.env_no_summary (Example.world Example.hello))
              Example.s3_event Example.context [] eq_refl) as [_ Hrun].
  apply (Hrun (JStr (lit "b1")) (JStr (lit "k1.txt")) Example.hello); reflexivity.
Defined.

Lemma store_calls_at_most_one (w : World) (key bucket : json) (text summary : str) :
  (List.length (store_calls w key bucket text summary) <= 1)%nat.
Proof.
  unfold store_calls. destruct (ENABLE_DYNAMODB w); [|cbn; lia].
  destruct (os_environ w "TABLE_NAME"); [cbn; lia|].
  destruct (_ >? 400000); cbn; lia.
Qed.

Lemma notify_calls_at_most_one (w : World) (key bucket : json) (summary : str) :
  (List.length (notify_calls w key bucket summary) <= 1)%nat.
Proof.
  unfold notify_calls. destruct (ENABLE_SNS w); [|cbn; lia].
  destruct (os_environ w "TOPIC_ARN"); cbn; lia.
Qed.

(** X21.  An invocation reads at most one object, writes at most one item
    and publishes at most one notification.  Nothing is called before the
    object is read: the calls of an S3 event, if any, start with the read of
    the bucket and key of its first record, and the write, if any, comes
    before the publication. *)
Theorem X21_ingestion_calls_once_and_in_order (w : World) (event : json)
    (ctx : Context) (h : list call) :
  let calls := snd (lambda_handler w event ctx h) in
  (List.length (filter is_get_object calls) <= 1)%nat /\
  (List.length (filter is_put_item calls) <= 1)%nat /\
  (List.length (filter is_publish calls) <= 1)%nat /\
  (is_custom_resource event = inr false ->
   calls = [] \/
   exists bucket key client writes publishes,
     s3_location event = inr (bucket, key) /\
     calls = S3_get_object bucket key :: client ++ writes ++ publishes /\
     forallb is_summarizer_call client = true /\
     forallb is_put_item writes = true /\
     forallb is_publish publishes = true).
Proof.
  cbv zeta. rewrite lambda_handler_run.
  destruct (is_custom_resource event) as [e|[|]]; cbn [snd].
  - repeat split; try (cbn; lia). discriminate.
  - rewrite !(filter_none is_provisioning_call _ _
                (apply_bucket_policy_calls w event ctx h))
      by (intros []; simpl; congruence).
    repeat split; try (cbn; lia). discriminate.
  - rewrite process_s3_event_run.
    destruct (s3_location event) as [e|[bucket key]];
      [repeat split; try (cbn; lia); now left|].
    destruct (s3_get_object w h bucket key) as [e|text].
    { cbn [snd]. repeat split; try (cbn; lia). intros _. right.
      exists bucket, key, [], [], []. repeat split. }
    cbv zeta. cbn [snd].
    set (client := snd (generate_summary w text (h ++ [S3_get_object bucket key]))).
    set (summary := match fst (generate_summary w text (h ++ [S3_get_object bucket key]))
                    with inr s => s | inl _ => placeholder_summary end).
    pose proof (generate_summary_calls w text (h ++ [S3_get_object bucket key]))
      as Hclient. fold client in Hclient.
    pose proof (store_calls_kind w key bucket text summary) as Hstore.
    pose proof (notify_calls_kind w key bucket summary) as Hnotify.
    cbn [filter is_get_object is_put_item is_publish].
    rewrite !filter_app.
    rewrite !(filter_none is_summarizer_call _ _ Hclient)
      by (intros []; simpl; congruence).
    rewrite (filter_none is_put_item is_get_object _ Hstore)
      by (intros []; simpl; congruence).
    rewrite (filter_none is_publish is_get_object _ Hnotify)
      by (intros []; simpl; congruence).
    rewrite (filter_none is_publish is_put_item _ Hnotify)
      by (intros []; simpl; congruence).
    rewrite (filter_none is_put_item is_publish _ Hstore)
      by (intros []; simpl; congruence).
    rewrite (filter_all _ _ Hstore), (filter_all _ _ Hnotify).
    cbn [app]. rewrite app_nil_r.
    pose proof (store_calls_at_most_one w key bucket text summary).
    pose proof (notify_calls_at_most_one w key bucket summary).
    repeat split; try (cbn; lia); try assumption.
    intros _. right.
    exists bucket, key, client, (store_calls w key bucket text summary),
      (notify_calls w key bucket summary).
    repeat split; assumption.
Qed.

Lemma X21_witness :
  exists bucket key client writes publishes,
    s3_location Example.s3_event = inr (bucket, key) /\
    snd (lambda_handler (Example.world Example.hello) Example.s3_event
           Example.context [])
    = S3_get_object bucket key :: client ++ writes ++ publishes /\
    forallb is_summarizer_call client = true /\
    forallb is_put_item writes = true /\
    forallb is_publish publishes = true.
Proof.
  destruct (X21_ingestion_calls_once_and_in_order (Example.world Example.hello)
              Example.s3_event Example.context []) as (_ & _ & _ & Horder).
  destruct (Horder eq_refl) as [Hnone | Hsome].
  - discriminate Hnone.
  - exact Hsome.
Defined.
